(** * run_local.py: key-file parsing, .env synthesis, installer and launcher

    A shallow embedding of [src/run_local.py].

    Text.  A Python [str] is a Rocq [string].  The text operations
    ([str.strip], [str.upper], [str.splitlines], [in], [str.split]) are
    those of Python on ASCII text: the bytes 9-13 and 28-32 are white
    space, the bytes 10-13 and 28-30 end a line, and [upper] maps a-z to
    A-Z.  The only text of the script outside ASCII that reaches a file is
    the header comment of the .env file; it is carried as the UTF-8 bytes
    that [write_text(..., encoding="utf-8")] puts on disk.

    Dictionaries.  [values] is a Python [dict]: insertion ordered, one
    entry per key.  It is an association list in insertion order, because
    [_format_env] iterates over [values.items()].  [os.environ] is only
    copied and updated at one key, so it is a [gmap].

    Effects.  Printing, [input()], the file system and [subprocess.run]
    are threaded through a state-and-exception monad over a [world].  A
    call of [subprocess.run] ends in an exit status, in an interrupt by
    the user, or in the OSError of an executable that cannot be started.
    The file system is the one the script itself reads and writes; what a
    child process does to the disk is not followed. *)

From stdpp Require Import gmap strings list.
From Stdlib Require Import Ascii ZArith Lia.

(** ** Python text operations *)

Module Py.

Definition code (c : ascii) : nat := nat_of_ascii c.

(** [str.isspace] on ASCII, which is what [str.strip()] removes. *)
Definition isspace (c : ascii) : bool :=
  let n := code c in
  ((9 <=? n)%nat && (n <=? 13)%nat) || ((28 <=? n)%nat && (n <=? 32)%nat).

(** The line boundaries of [str.splitlines] on ASCII:
    \n \r \v \f \x1c \x1d \x1e (and \r\n as one boundary). *)
Definition islinebreak (c : ascii) : bool :=
  let n := code c in
  ((10 <=? n)%nat && (n <=? 13)%nat) || ((28 <=? n)%nat && (n <=? 30)%nat).

(** [str.isascii]: every character is below 128. *)
Fixpoint isascii (s : string) : bool :=
  match s with
  | EmptyString => true
  | String c r => (code c <? 128)%nat && isascii r
  end.

Definition upper_char (c : ascii) : ascii :=
  let n := code c in
  if ((97 <=? n)%nat && (n <=? 122)%nat)%bool then ascii_of_nat (n - 32) else c.

Definition lower_char (c : ascii) : ascii :=
  let n := code c in
  if ((65 <=? n)%nat && (n <=? 90)%nat)%bool then ascii_of_nat (n + 32) else c.

(** [s.lower()] on ASCII text: only A-Z change.  Python also maps
    letters outside ASCII; a statement that rests on [lower] says so by
    asking for ASCII text. *)
Fixpoint lower (s : string) : string :=
  match s with
  | EmptyString => EmptyString
  | String c r => String (lower_char c) (lower r)
  end.

(** [s.upper()] on ASCII text: only a-z change. *)
Fixpoint upper (s : string) : string :=
  match s with
  | EmptyString => EmptyString
  | String c r => String (upper_char c) (upper r)
  end.

(** [s.lstrip()] *)
Fixpoint lstrip (s : string) : string :=
  match s with
  | EmptyString => EmptyString
  | String c r => if isspace c then lstrip r else s
  end.

(** [s.rstrip()] *)
Fixpoint rstrip (s : string) : string :=
  match s with
  | EmptyString => EmptyString
  | String c r =>
      match rstrip r with
      | EmptyString => if isspace c then EmptyString else String c EmptyString
      | r' => String c r'
      end
  end.

(** [s.strip()] *)
Definition strip (s : string) : string := lstrip (rstrip s).

(** [s.startswith(p)] *)
Fixpoint startswith (p s : string) : bool :=
  match p, s with
  | EmptyString, _ => true
  | String a p', String b s' => if Ascii.eqb a b then startswith p' s' else false
  | String _ _, EmptyString => false
  end.

(** [sub in s] *)
Fixpoint contains (sub s : string) : bool :=
  startswith sub s ||
  match s with
  | EmptyString => false
  | String _ r => contains sub r
  end.

(** [c in s] for a one-character [c] *)
Fixpoint has_char (c : ascii) (s : string) : bool :=
  match s with
  | EmptyString => false
  | String a r => Ascii.eqb c a || has_char c r
  end.

(** [s.split(sep, 1)] for a one-character [sep]: the text before the
    first [sep] and the text after it.  When [sep] does not occur Python
    returns the one-element list [[s]]; that case is the pair
    [(s, None)]. *)
Fixpoint split1 (sep : ascii) (s : string) : string * option string :=
  match s with
  | EmptyString => (EmptyString, None)
  | String a r =>
      if Ascii.eqb sep a then (EmptyString, Some r)
      else let '(l, t) := split1 sep r in (String a l, t)
  end.

(** [s.splitlines()]: [cur] is the line read so far. *)
Fixpoint splitlines_from (cur : string) (s : string) : list string :=
  match s with
  | EmptyString =>
      match cur with EmptyString => [] | _ => [cur] end
  | String a r =>
      if islinebreak a then
        cur :: match a, r with
               | "013"%char, String "010"%char r' => splitlines_from EmptyString r'
               | _, _ => splitlines_from EmptyString r
               end
      else splitlines_from (cur +:+ String a EmptyString) r
  end.

Definition splitlines (s : string) : list string :=
  splitlines_from EmptyString s.

(** [s[-1]] *)
Fixpoint last_char (s : string) : option ascii :=
  match s with
  | EmptyString => None
  | String c EmptyString => Some c
  | String _ r => last_char r
  end.

(** [s[:-1]] *)
Fixpoint drop_last (s : string) : string :=
  match s with
  | EmptyString => EmptyString
  | String _ EmptyString => EmptyString
  | String c r => String c (drop_last r)
  end.

(** [sep.join(ls)] is [String.concat sep ls]. *)
Definition join (sep : string) (ls : list string) : string :=
  String.concat sep ls.

(** [s * n] *)
Fixpoint repeat (s : string) (n : nat) : string :=
  match n with
  | O => EmptyString
  | S n' => s +:+ repeat s n'
  end.

Definition newline : string := String "010"%char EmptyString.

End Py.

(** ** The [values] dictionary *)

Module Dict.

(** Entries in insertion order. *)
Definition t : Type := list (string * string).

Definition empty : t := [].

Fixpoint lookup (k : string) (d : t) : option string :=
  match d with
  | [] => None
  | (k', v) :: r => if String.eqb k k' then Some v else lookup k r
  end.

(** [k in d] *)
Definition mem (k : string) (d : t) : bool :=
  match lookup k d with Some _ => true | None => false end.

(** [d.get(k, default)] *)
Definition get (d : t) (k default : string) : string :=
  match lookup k d with Some v => v | None => default end.

(** [d.setdefault(k, v)]: a new key goes to the end, a present key
    keeps its value and its place. *)
Definition setdefault (k v : string) (d : t) : t :=
  if mem k d then d else d ++ [(k, v)].

(** [list(d.keys())] *)
Definition keys (d : t) : list string := map fst d.

(** [not d] *)
Definition is_empty (d : t) : bool :=
  match d with [] => true | _ => false end.

End Dict.

(** ** Key-file parsing (run_local.py, lines 160-216) *)

Definition GEMINI_API_KEY : string := "GEMINI_API_KEY".
Definition OPENAI_API_KEY : string := "OPENAI_API_KEY".

(** [_remove_inline_comment]: [value.split('#', 1)[0].strip()] *)
Definition _remove_inline_comment (value : string) : string :=
  Py.strip (fst (Py.split1 "#" value)).

Definition dquote : ascii := "034"%char.
Definition squote : ascii := "039"%char.

(** Membership in the set of the double and the single quote. *)
Definition is_quote (c : ascii) : bool :=
  Ascii.eqb c dquote || Ascii.eqb c squote.

(** [_strip_quotes] *)
Definition _strip_quotes (value : string) : string :=
  let value := Py.strip value in
  match value with
  | String first rest =>
      match Py.last_char rest with
      | Some last =>
          (* len(value) >= 2 *)
          if Ascii.eqb first last && is_quote first
          then Py.drop_last rest          (* value[1:-1] *)
          else value
      | None => value
      end
  | EmptyString => value
  end.

(** The loop [for sep in ("=", ":")] of [_parse_key_line]. *)
Fixpoint parse_with (seps : list ascii) (line : string) : option (string * string) :=
  match seps with
  | [] => None
  | sep :: seps' =>
      if Py.has_char sep line then
        let '(left_, right_) := Py.split1 sep line in
        Some (Py.strip left_, Py.strip (default EmptyString right_))
      else parse_with seps' line
  end.

(** [_parse_key_line] *)
Definition _parse_key_line (line : string) : option (string * string) :=
  parse_with ["="%char; ":"%char] line.

(** The state of the loop of [_load_keys_file]: the dictionary [values]
    and the list [sequential]. *)
Definition parse_state : Type := Dict.t * list string.

(** One iteration of [for raw_line in content.splitlines()]. *)
Definition process_line (st : parse_state) (raw_line : string) : parse_state :=
  let '(values, sequential) := st in
  let line := Py.strip raw_line in
  if String.eqb line EmptyString || Py.startswith "#" line then st
  else
    match _parse_key_line line with
    | None =>
        (values, sequential ++ [_strip_quotes (_remove_inline_comment line)])
    | Some (key, value) =>
        let key_upper := Py.upper key in
        let value := _strip_quotes (_remove_inline_comment value) in
        if Py.contains "GEMINI" key_upper && Py.contains "API_KEY" key_upper
        then (Dict.setdefault GEMINI_API_KEY value values, sequential)
        else if Py.contains "OPENAI" key_upper && Py.contains "API_KEY" key_upper
        then (Dict.setdefault OPENAI_API_KEY value values, sequential)
        else (Dict.setdefault key_upper value values, sequential)
    end.

(** The whole loop. *)
Definition parse_lines (content : string) : parse_state :=
  fold_left process_line (Py.splitlines content) (Dict.empty, []).

(** A non-empty Python string is true. *)
Definition truthy (s : string) : bool := negb (String.eqb s EmptyString).

(** [if sequential: ...] after the loop (lines 190-194). *)
Definition fill_sequential (st : parse_state) : Dict.t :=
  let '(values, sequential) := st in
  match sequential with
  | [] => values
  | s0 :: tl =>
      let values :=
        if truthy s0 then Dict.setdefault GEMINI_API_KEY s0 values else values in
      match tl with
      | s1 :: _ =>
          if truthy s1 then Dict.setdefault OPENAI_API_KEY s1 values else values
      | [] => values
      end
  end.

(** [_load_keys_file].  The function reads nothing but the file at
    [path]; its argument here is what [path.exists()] and
    [path.read_text] give: [None] when there is no file, else the text
    (see [read_if_exists] for the two calls). *)
Definition _load_keys_file (file : option string) : Dict.t :=
  match file with
  | None => Dict.empty
  | Some content => fill_sequential (parse_lines content)
  end.

(** ** .env synthesis (lines 147-157) *)

(** The first line of every .env file the script writes. *)
Definition env_header : string := "# 環境変数設定".

Definition is_well_known (k : string) : bool :=
  String.eqb k GEMINI_API_KEY || String.eqb k OPENAI_API_KEY.

(** [extra_keys]: the entries of [values] outside the two well-known keys. *)
Definition extra_keys (values : Dict.t) : Dict.t :=
  List.filter (fun kv => negb (is_well_known (fst kv))) values.

Definition env_line (k v : string) : string := k +:+ "=" +:+ v.

(** [_format_env] *)
Definition _format_env (values : Dict.t) : string :=
  let lines := [env_header] in
  let lines :=
    lines ++ map (fun key => env_line key (Dict.get values key EmptyString))
                 [GEMINI_API_KEY; OPENAI_API_KEY] in
  let lines :=
    lines ++ map (fun kv => env_line (fst kv) (snd kv)) (extra_keys values) in
  Py.join Py.newline lines +:+ Py.newline.

(** ** The world the script runs in *)

(** What a path names. *)
Inductive node : Type :=
  | File (content : string)
  | Dir.

(** What the terminal gives to one call of [input()]: a line, or Ctrl-C.
    An exhausted terminal is end of input. *)
Inductive input_event : Type :=
  | Line (s : string)
  | CtrlC.

(** The exceptions the script can meet. *)
Inductive exn : Type :=
  | KeyboardInterrupt
  | EOFError
  | OSError
  | CalledProcessError (cmd : list string) (returncode : Z).

(** [isinstance(e, Exception)]: KeyboardInterrupt derives from
    BaseException only. *)
Definition is_Exception (e : exn) : bool :=
  match e with
  | KeyboardInterrupt => false
  | _ => true
  end.

(** [subprocess.CompletedProcess] *)
Record completed : Type := Completed {
  returncode : Z;
  stdout : string;
  stderr : string;
}.

(** What happens when [subprocess.run] is called: the child runs to its
    exit, or the user interrupts the wait, or no child can be started at
    all (the executable is missing: FileNotFoundError, an OSError). *)
Inductive run_event : Type :=
  | Exits (c : completed)
  | Interrupted
  | CannotStart.

(** One call of [subprocess.run]. *)
Record call : Type := Call {
  argv : list string;
  check : bool;
  capture : bool;                          (* stdout=PIPE, stderr=PIPE *)
  child_env : option (gmap string string); (* env=..., None: inherited *)
}.

(** What the script writes to the terminal. *)
Inductive output : Type :=
  | Print (s : string)                     (* print(s) *)
  | PrintExn (s : string) (e : exn)        (* print(f"{s}{e}") *)
  | Prompt (s : string)                    (* the prompt of input(s) *)
  | StdoutWrite (s : string)               (* sys.stdout.write(s) *)
  | StderrWrite (s : string).              (* sys.stderr.write(s) *)

Record world : Type := World {
  fs : gmap string node;                   (* the files the script reads and writes *)
  stdin : list input_event;
  printed : list output;
  runs : nat -> run_event;                 (* fate of the call after n children *)
  calls : list call;                       (* the children started so far *)
  environ : gmap string string;            (* os.environ *)
  sys_executable : string;                 (* sys.executable *)
  os_name : string;                        (* os.name *)
}.

Definition set_fs (f : gmap string node) (w : world) : world :=
  World f (stdin w) (printed w) (runs w) (calls w) (environ w)
        (sys_executable w) (os_name w).

Definition set_stdin (i : list input_event) (w : world) : world :=
  World (fs w) i (printed w) (runs w) (calls w) (environ w)
        (sys_executable w) (os_name w).

Definition add_output (o : output) (w : world) : world :=
  World (fs w) (stdin w) (printed w ++ [o]) (runs w) (calls w) (environ w)
        (sys_executable w) (os_name w).

Definition add_call (c : call) (w : world) : world :=
  World (fs w) (stdin w) (printed w) (runs w) (calls w ++ [c]) (environ w)
        (sys_executable w) (os_name w).

(** ** State and exceptions *)

Inductive result (A : Type) : Type :=
  | Returns (a : A)
  | Raises (e : exn).
Arguments Returns {A} a.
Arguments Raises {A} e.

Definition M (A : Type) : Type := world -> result A * world.

Definition ret {A} (a : A) : M A := fun w => (Returns a, w).

Definition raise {A} (e : exn) : M A := fun w => (Raises e, w).

Definition bind {A B} (m : M A) (k : A -> M B) : M B :=
  fun w =>
    match m w with
    | (Returns a, w') => k a w'
    | (Raises e, w') => (Raises e, w')
    end.

(** [try: m except ...: handler]: [handler e] is [None] when no except
    clause matches [e]. *)
Definition try_except {A} (m : M A) (handler : exn -> option (M A)) : M A :=
  fun w =>
    match m w with
    | (Returns a, w') => (Returns a, w')
    | (Raises e, w') =>
        match handler e with
        | Some h => h w'
        | None => (Raises e, w')
        end
    end.

Notation "x <- m ;; k" := (bind m (fun x => k))
  (at level 100, m at next level, right associativity).
Notation "m ;;; k" := (bind m (fun _ => k))
  (at level 100, right associativity).

Definition get_world : M world := fun w => (Returns w, w).

Definition print (s : string) : M unit :=
  fun w => (Returns tt, add_output (Print s) w).

Definition print_exn (s : string) (e : exn) : M unit :=
  fun w => (Returns tt, add_output (PrintExn s e) w).

(** Several calls of [print] in a row. *)
Fixpoint print_all (lines : list string) : M unit :=
  match lines with
  | [] => ret tt
  | l :: rest => bind (print l) (fun _ => print_all rest)
  end.

Definition stdout_write (s : string) : M unit :=
  fun w => (Returns tt, add_output (StdoutWrite s) w).

Definition stderr_write (s : string) : M unit :=
  fun w => (Returns tt, add_output (StderrWrite s) w).

(** [input(prompt)] *)
Definition input (prompt : string) : M string :=
  fun w =>
    let w := add_output (Prompt prompt) w in
    match stdin w with
    | [] => (Raises EOFError, w)
    | Line s :: rest => (Returns s, set_stdin rest w)
    | CtrlC :: rest => (Raises KeyboardInterrupt, set_stdin rest w)
    end.

(** [Path(p).exists()] *)
Definition path_exists (p : string) : M bool :=
  fun w => (Returns (bool_decide (is_Some (fs w !! p))), w).

(** [Path(p).read_text(encoding="utf-8")] *)
Definition read_text (p : string) : M string :=
  fun w =>
    match fs w !! p with
    | Some (File content) => (Returns content, w)
    | _ => (Raises OSError, w)
    end.

(** [Path(p).write_text(content, encoding="utf-8")]: the file is created
    or replaced as a whole. *)
Definition write_text (p content : string) : M unit :=
  fun w =>
    match fs w !! p with
    | Some Dir => (Raises OSError, w)
    | _ => (Returns tt, set_fs (<[p := File content]> (fs w)) w)
    end.

(** [subprocess.run(argv, check=..., env=...)]: the child meets the fate
    the world holds for it.  A child that was started is recorded in
    [calls]; when none can be started [subprocess.run] raises OSError and
    nothing is recorded.  What a child writes to the disk is not followed:
    [fs] holds what the script itself reads and writes, and the script
    never looks at a path again after a child that may have made it. *)
Definition subprocess_run (c : call) : M completed :=
  fun w =>
    let fate := runs w (length (calls w)) in
    match fate with
    | CannotStart => (Raises OSError, w)
    | Interrupted => (Raises KeyboardInterrupt, add_call c w)
    | Exits p =>
        let w := add_call c w in
        if check c && negb (returncode p =? 0)%Z
        then (Raises (CalledProcessError (argv c) (returncode p)), w)
        else (Returns p, w)
    end.

(** ** Dependency installer (lines 29-105) *)

Definition venv_dir : string := ".venv".

(** [_resolve_venv_python] *)
Definition _resolve_venv_python (venv_dir : string) : M string :=
  w <- get_world ;;
  if String.eqb (os_name w) "nt"
  then ret (venv_dir +:+ "\Scripts\python.exe")
  else ret (venv_dir +:+ "/bin/python").

Definition venv_command (exe : string) : call :=
  Call [exe; "-m"; "venv"; venv_dir] true false None.

Definition pip_command (exe : string) (check capture : bool) : call :=
  Call [exe; "-m"; "pip"; "install"; "-r"; "requirements.txt"] check capture None.

Definition only_CalledProcessError {A} (h : exn -> M A) (e : exn) : option (M A) :=
  match e with
  | CalledProcessError _ _ => Some (h e)
  | _ => None
  end.

(** [_install_with_virtualenv] *)
Definition _install_with_virtualenv : M (option string) :=
  print "⚠️  システム管理下のPython環境が検出されました。仮想環境(.venv)を作成します。" ;;;
  w <- get_world ;;
  present <- path_exists venv_dir ;;
  created <-
    (if negb present then
       try_except
         (subprocess_run (venv_command (sys_executable w)) ;;; ret true)
         (only_CalledProcessError (fun exc =>
            print_exn "❌ 仮想環境の作成に失敗しました: " exc ;;; ret false))
     else ret true) ;;
  if negb created then ret None
  else
    venv_python <- _resolve_venv_python venv_dir ;;
    try_except
      (subprocess_run (pip_command venv_python true false) ;;;
       print "✅ 仮想環境で依存関係をインストールしました (.venv)" ;;;
       print "   次回以降は .venv/bin/activate (またはScripts\activate) を利用すると便利です。" ;;;
       ret (Some venv_python))
      (only_CalledProcessError (fun exc =>
         print_exn "❌ 仮想環境への依存関係インストールに失敗しました: " exc ;;;
         ret None)).

Definition installing_message : string := "📦 依存関係をインストール中...".
Definition externally_managed : string := "externally-managed-environment".

(** [install_dependencies] *)
Definition install_dependencies : M (option string) :=
  print installing_message ;;;
  w <- get_world ;;
  result <- subprocess_run (pip_command (sys_executable w) false true) ;;
  (if truthy (stdout result) then stdout_write (stdout result) else ret tt) ;;;
  (if truthy (stderr result) then stderr_write (stderr result) else ret tt) ;;;
  if (returncode result =? 0)%Z then
    print "✅ 依存関係のインストール完了" ;;;
    ret (Some (sys_executable w))
  else if Py.contains externally_managed (stderr result) then
    _install_with_virtualenv
  else
    print "❌ 依存関係のインストールに失敗しました" ;;;
    ret None.

(** ** Environment file from Keys.txt (lines 107-144) *)

Definition prompt_notice : string :=
  "⚠️  Keys.txtが見つからないか、解析できませんでした。APIキーを直接入力してください。".
Definition gemini_prompt : string :=
  "   GEMINI_API_KEY (未設定の場合は空のままEnter): ".
Definition openai_prompt : string :=
  "   OPENAI_API_KEY (未設定の場合は空のままEnter): ".

(** [_prompt_for_keys] *)
Definition _prompt_for_keys : M Dict.t :=
  print prompt_notice ;;;
  gemini_key <- input gemini_prompt ;;
  let gemini_key := Py.strip gemini_key in
  openai_key <- input openai_prompt ;;
  let openai_key := Py.strip openai_key in
  ret [(GEMINI_API_KEY, gemini_key); (OPENAI_API_KEY, openai_key)].

(** What [_load_keys_file] finds at [path]: nothing, or the text of the
    file ([path.exists()], then [path.read_text]). *)
Definition read_if_exists (path : string) : M (option string) :=
  present <- path_exists path ;;
  if negb present then ret None
  else content <- read_text path ;; ret (Some content).

Definition no_keys_notice : string :=
  "⚠️  Keys.txtから有効なAPIキーを取得できませんでした。".
Definition env_created_message : string := "✅ .envファイルを作成しました".
Definition env_failed_prefix : string := "❌ .envファイルの作成に失敗: ".
Definition user_abort_message : string :=
  Py.newline +:+ "❌ .envファイルの作成をユーザーが中断しました".

(** The except clauses of [create_env_from_keys]. *)
Definition create_env_handler (e : exn) : option (M unit) :=
  match e with
  | KeyboardInterrupt => Some (print user_abort_message)
  | _ =>
      if is_Exception e
      then Some (print_exn env_failed_prefix e)
      else None
  end.

(** [create_env_from_keys] *)
Definition create_env_from_keys : M unit :=
  let keys_path := "Keys.txt" in
  try_except
    (file <- read_if_exists keys_path ;;
     let values := _load_keys_file file in
     values <-
       (if Dict.is_empty values then
          print no_keys_notice ;;;
          _prompt_for_keys
        else ret values) ;;
     write_text ".env" (_format_env values) ;;;
     print env_created_message)
    create_env_handler.

(** [setup_environment] *)
Definition setup_environment : M unit :=
  print "🔧 環境変数を設定中..." ;;;
  present <- path_exists ".env" ;;
  (if negb present then
     print "⚠️  .envファイルが見つかりません" ;;;
     print "   Keys.txtから環境変数を作成しますか？ (y/n): " ;;;
     answer <- input "" ;;
     if String.eqb (Py.lower answer) "y" then create_env_from_keys else ret tt
   else ret tt) ;;;
  print "✅ 環境設定完了".

(** ** Application launcher (lines 218-235) *)

Definition app_command (python_exec : string) (env : gmap string string) : call :=
  Call [python_exec; "-m"; "app.main"] true false (Some env).

(** The four lines printed before the application starts. *)
Definition banner : list string :=
  ["🚀 アプリケーションを起動中...";
   "📍 アクセス先: http://localhost:25254";
   "🛑 停止するには Ctrl+C を押してください";
   Py.repeat "-" 50].

(** The source writes a backslash and an n here, not a newline. *)
Definition stopped_message : string := "\n👋 アプリケーションを停止しました".
Definition app_failed_prefix : string := "❌ アプリケーションの実行に失敗: ".

Definition run_application_handler (e : exn) : option (M unit) :=
  match e with
  | KeyboardInterrupt => Some (print stopped_message)
  | CalledProcessError _ _ =>
      Some (print_exn app_failed_prefix e)
  | _ => None
  end.

(** [run_application] *)
Definition run_application (python_exec : string) : M unit :=
  print_all banner ;;;
  try_except
    (w <- get_world ;;
     let env := environ w in
     let env := <["PORT" := "25254"]> env in
     subprocess_run (app_command python_exec env) ;;;
     ret tt)
    run_application_handler.

(** ** Precondition check and main (lines 12-27 and 237-255) *)

(** [a < b] on tuples of integers: Python compares sequences item by
    item, and a proper prefix is smaller. *)
Fixpoint tuple_lt (a b : list Z) : bool :=
  match a, b with
  | _, [] => false
  | [], _ :: _ => true
  | x :: a', y :: b' =>
      if (x <? y)%Z then true
      else if (y <? x)%Z then false
      else tuple_lt a' b'
  end.

Definition checking_message : string := "🔍 依存関係をチェック中...".
Definition python_too_old_message : string := "❌ Python 3.10以上が必要です".
Definition no_requirements_message : string := "❌ requirements.txtが見つかりません".
Definition check_done_message : string := "✅ 依存関係チェック完了".

(** [check_requirements].  [version_info] stands for [sys.version_info]:
    its integer items, major and minor first.  The comparison with
    [(3, 10)] never looks past the second item. *)
Definition check_requirements (version_info : list Z) : M bool :=
  print checking_message ;;;
  if tuple_lt version_info [3%Z; 10%Z] then
    print python_too_old_message ;;;
    ret false
  else
    present <- path_exists "requirements.txt" ;;
    if negb present then
      print no_requirements_message ;;;
      ret false
    else
      print check_done_message ;;;
      ret true.

(** How [main] ends: it falls off its end, or [sys.exit(code)] stops the
    script.  Nothing in the script catches SystemExit. *)
Inductive main_result : Type :=
  | Finished
  | SystemExit (code : Z).

Definition main_title : list string :=
  ["🎯 AnyAI Marketing Agent - ローカル実行"; Py.repeat "=" 50].

(** [main].  [if not python_exec] holds for [None] and for the empty
    string. *)
Definition main (version_info : list Z) : M main_result :=
  print_all main_title ;;;
  ok <- check_requirements version_info ;;
  if negb ok then ret (SystemExit 1)
  else
    python_exec <- install_dependencies ;;
    match python_exec with
    | None => ret (SystemExit 1)
    | Some exe =>
        if negb (truthy exe) then ret (SystemExit 1)
        else
          setup_environment ;;;
          run_application exe ;;;
          ret Finished
    end.

(** ** Notions used to state the properties *)

(** The dictionary key under which [process_line] stores a label: the
    if / elif / else of lines 183-188. *)
Definition stored_key (key : string) : string :=
  let key_upper := Py.upper key in
  if Py.contains "GEMINI" key_upper && Py.contains "API_KEY" key_upper
  then GEMINI_API_KEY
  else if Py.contains "OPENAI" key_upper && Py.contains "API_KEY" key_upper
  then OPENAI_API_KEY
  else key_upper.

(** A line that the loop does not skip: not blank and not a comment. *)
Definition is_effective (line : string) : bool :=
  negb (String.eqb line EmptyString || Py.startswith "#" line).

(** The entry a raw line offers to [values]: the stored key and the
    cleaned value of a labeled line, nothing for any other line. *)
Definition entry_of_line (raw_line : string) : option (string * string) :=
  let line := Py.strip raw_line in
  if is_effective line then
    match _parse_key_line line with
    | Some (key, value) =>
        Some (stored_key key, _strip_quotes (_remove_inline_comment value))
    | None => None
    end
  else None.

(** What a raw line does to the dictionary. *)
Definition offer (d : Dict.t) (raw_line : string) : Dict.t :=
  match entry_of_line raw_line with
  | Some (k, v) => Dict.setdefault k v d
  | None => d
  end.

(** The value of a slot: the labeled one, else the list entry at the
    slot's position when that entry is a non-empty string. *)
Definition slot_value (labeled : option string) (entry : option string) : option string :=
  match labeled with
  | Some v => Some v
  | None =>
      match entry with
      | Some s => if truthy s then Some s else None
      | None => None
      end
  end.

(** A line without separator: it carries no key name. *)
Definition has_separator (line : string) : bool :=
  Py.has_char "=" line || Py.has_char ":" line.

(** The value the loop takes from a line or from the right part of a
    labeled line. *)
Definition clean (text : string) : string :=
  _strip_quotes (_remove_inline_comment text).

(** The keys that labeled lines offer outside the two credential slots,
    in file order. *)
Definition extra_label (raw_line : string) : option string :=
  match entry_of_line raw_line with
  | Some (k, _) => if is_well_known k then None else Some k
  | None => None
  end.

(** First-encountered order: every key once, at its first place. *)
Fixpoint first_seen (ks : list string) : list string :=
  match ks with
  | [] => []
  | k :: r => k :: List.filter (fun k' => negb (String.eqb k' k)) (first_seen r)
  end.

(** [k in ks] *)
Definition inb (k : string) (ks : list string) : bool :=
  existsb (String.eqb k) ks.

(** The labels of the extra keys of a file, in file order. *)
Definition extra_labels (lines : list string) : list string :=
  omap extra_label lines.

(** Every line followed by a newline. *)
Definition unlines (ls : list string) : string :=
  fold_right (fun l acc => l +:+ Py.newline +:+ acc) EmptyString ls.

(** The environment-file content as the specification words it: the two
    well-known keys first, then the extra keys, nothing else. *)
Definition spec_env_content (values : Dict.t) : string :=
  unlines
    ([env_line GEMINI_API_KEY (Dict.get values GEMINI_API_KEY EmptyString);
      env_line OPENAI_API_KEY (Dict.get values OPENAI_API_KEY EmptyString)]
     ++ map (fun kv => env_line (fst kv) (snd kv)) (extra_keys values)).

(** A [#] that no backslash escapes, as the specification words the start
    of an inline comment: a backslash protects the character after it. *)
Fixpoint has_unescaped_hash (s : string) : bool :=
  match s with
  | EmptyString => false
  | String "\"%char (String _ r) => has_unescaped_hash r
  | String "#"%char _ => true
  | String _ r => has_unescaped_hash r
  end.

(** A call that creates the isolated environment: [<exe> -m venv .venv]. *)
Definition is_venv_creation (c : call) : bool :=
  match argv c with
  | [_; a; b; d] => String.eqb a "-m" && String.eqb b "venv" && String.eqb d venv_dir
  | _ => false
  end.

(** The world in which [install_dependencies] goes on after its install
    command has exited with [c]: the call is recorded and the captured
    output shown. *)
Definition after_pip (w : world) (c : completed) : world :=
  let w := add_output (Print installing_message) w in
  let w := add_call (pip_command (sys_executable w) false true) w in
  let w := if truthy (stdout c) then add_output (StdoutWrite (stdout c)) w else w in
  if truthy (stderr c) then add_output (StderrWrite (stderr c)) w else w.

(** An exit status other than zero. *)
Definition failed (fate : run_event) : bool :=
  match fate with
  | Exits c => negb (returncode c =? 0)%Z
  | Interrupted | CannotStart => false
  end.

(** Exit status zero. *)
Definition succeeded (fate : run_event) : bool :=
  match fate with
  | Exits c => (returncode c =? 0)%Z
  | Interrupted | CannotStart => false
  end.

(** The two characters that separate a label from its value. *)
Definition is_separator (c : ascii) : bool :=
  Ascii.eqb c "=" || Ascii.eqb c ":".

(** The position of the first separator character of a line. *)
Fixpoint first_separator_position (line : string) : option nat :=
  match line with
  | EmptyString => None
  | String c rest =>
      if is_separator c then Some O
      else option_map S (first_separator_position rest)
  end.

(** The executable of the command cannot be started. *)
Definition unstartable (fate : run_event) : bool :=
  match fate with
  | CannotStart => true
  | Exits _ | Interrupted => false
  end.

(** The processes one call of [subprocess.run] adds to those started. *)
Definition started_by (fate : run_event) (c : call) : list call :=
  if unstartable fate then [] else [c].

(** The path of the interpreter inside the isolated environment. *)
Definition venv_python_of (os : string) : string :=
  if String.eqb os "nt" then venv_dir +:+ "\Scripts\python.exe"
  else venv_dir +:+ "/bin/python".

(** [_load_keys_file] on the lines of an existing file. *)
Definition load_lines (lines : list string) : Dict.t :=
  fill_sequential (fold_left process_line lines (Dict.empty, [])).

(** A line that the loop of [_load_keys_file] looks at. *)
Definition kept (raw_line : string) : bool := is_effective (Py.strip raw_line).

(** No character of the text ends a line. *)
Fixpoint no_linebreak (s : string) : bool :=
  match s with
  | EmptyString => true
  | String c r => negb (Py.islinebreak c) && no_linebreak r
  end.

(** A value that the parser takes as it stands: no white space around
    it, no [#], no line break, not wrapped in quotes. *)
Definition plain_value (v : string) : Prop :=
  Py.lstrip v = v /\ Py.rstrip v = v /\ Py.has_char "#" v = false /\
  _strip_quotes v = v /\ no_linebreak v = true.

(** A call that launches the application: [<exe> -m app.main]. *)
Definition is_app_launch (c : call) : bool :=
  match argv c with
  | [_; a; b] => String.eqb a "-m" && String.eqb b "app.main"
  | _ => false
  end.

(** The environment of the launched application. *)
Definition app_env (w : world) : gmap string string :=
  <["PORT" := "25254"]> (environ w).

(** Every character of the text passes the test. *)
Fixpoint all_chars (p : ascii -> bool) (s : string) : bool :=
  match s with
  | EmptyString => true
  | String c r => p c && all_chars p r
  end.

(** The lines of the environment file, before they are joined. *)
Definition env_lines (values : Dict.t) : list string :=
  env_header
  :: env_line GEMINI_API_KEY (Dict.get values GEMINI_API_KEY EmptyString)
  :: env_line OPENAI_API_KEY (Dict.get values OPENAI_API_KEY EmptyString)
  :: map (fun kv => env_line (fst kv) (snd kv)) (extra_keys values).

(** The test for a character other than [c]. *)
Definition other_than (c : ascii) (a : ascii) : bool := negb (Ascii.eqb c a).

(** The test for a character that does not end a line. *)
Definition inside_line (a : ascii) : bool := negb (Py.islinebreak a).

(** The state of the loop when every key passes [Pk] and every value,
    stored or waiting in the sequential list, passes [Pv]. *)
Definition state_satisfies (Pk Pv : string -> Prop) (st : parse_state) : Prop :=
  Forall Pk (Dict.keys (fst st)) /\ Forall Pv (map snd (fst st)) /\
  Forall Pv (snd st).

(** Where [str.splitlines] goes on after the line break [a]: a line feed
    right after a carriage return belongs to the same break. *)
Definition after_break (a : ascii) (r : string) : string :=
  match a, r with
  | "013"%char, String "010"%char r' => r'
  | _, _ => r
  end.

(** Two worlds that differ at most in what was printed and in the
    processes started. *)
Definition same_surroundings (w w' : world) : Prop :=
  fs w' = fs w /\ stdin w' = stdin w /\ runs w' = runs w /\
  environ w' = environ w /\ sys_executable w' = sys_executable w /\
  os_name w' = os_name w.

(** ** Sample inputs and worlds *)

(** The content of the environment file for empty answers. *)
Definition empty_env_content : string :=
  unlines [env_header; "GEMINI_API_KEY="; "OPENAI_API_KEY="].

Definition no_terminal : nat -> run_event := fun _ => Interrupted.

(** A fresh checkout on a POSIX system: no Keys.txt, no .env, and a user
    who answers both prompts with the Enter key. *)
Definition fresh_world : world :=
  World ∅ [Line EmptyString; Line EmptyString] [] no_terminal [] ∅
        "/usr/bin/python3" "posix".

(** The text [Gemini_Api_Key = "abc" # note]. *)
Definition quoted_line : string :=
  "Gemini_Api_Key = " +:+ String dquote ("abc" +:+ String dquote " # note").

(** Its value part: [ "abc" # note] after the separator, trimmed. *)
Definition quoted_value : string :=
  String dquote ("abc" +:+ String dquote " # note").

(** A key file with extra keys, one of them twice. *)
Definition extras_sample : string :=
  unlines ["b=1"; "a=2"; "gemini_api_key=k"; "B=3"].

(** The text of a key file: the lines, each followed by a newline. *)
Definition openai_then_bare : string :=
  unlines ["OPENAI_API_KEY=abc"; "xyz"].


Definition both_labeled_and_bare : string :=
  unlines ["GEMINI_API_KEY=g"; "OPENAI_API_KEY=o"; "bare"].

Definition two_bare_lines : string := unlines ["abc"; " 'x y' "].

(** pip succeeds at once. *)
Definition pip_ok_world : world :=
  World ∅ [] [] (fun _ => Exits (Completed 0 "ok" EmptyString)) [] ∅
        "/usr/bin/python3" "posix".

(** pip refuses a system-managed interpreter; inside .venv all is well. *)
Definition managed_runs (n : nat) : run_event :=
  match n with
  | O => Exits (Completed 1 EmptyString "error: externally-managed-environment")
  | _ => Exits (Completed 0 EmptyString EmptyString)
  end.

Definition managed_world : world :=
  World ∅ [] [] managed_runs [] ∅ "/usr/bin/python3" "posix".

(** No Keys.txt, and the user presses Ctrl-C at the first prompt. *)
Definition interrupting_world : world :=
  World ∅ [CtrlC] [] no_terminal [] ∅ "/usr/bin/python3" "posix".

(** No Keys.txt, and a terminal that ends after one answer. *)
Definition one_answer_world : world :=
  World ∅ [Line "abc"] [] no_terminal [] ∅ "/usr/bin/python3" "posix".

(** A key file with one labeled key, and an old .env. *)
Definition keys_and_old_env_world : world :=
  World {[ "Keys.txt" := File "gemini_api_key: k"; ".env" := File "old" ]}
        [] [] no_terminal [] ∅ "/usr/bin/python3" "posix".

Definition setting_up_message : string := "🔧 環境変数を設定中...".
Definition setup_done_message : string := "✅ 環境設定完了".

(** An existing .env, and an unused terminal. *)
Definition configured_world : world :=
  World {[ ".env" := File "GEMINI_API_KEY=k" ]} [Line "y"] [] no_terminal [] ∅
        "/usr/bin/python3" "posix".

(** No .env, and Ctrl-C at the question whether to create one. *)
Definition refusing_world : world :=
  World ∅ [CtrlC; Line "y"] [] no_terminal [] ∅ "/usr/bin/python3" "posix".

(** The user interrupts pip. *)
Definition interrupted_pip_world : world :=
  World ∅ [] [] no_terminal [] ∅ "/usr/bin/python3" "posix".

(** Python 3.9 in a directory without requirements.txt. *)
Definition old_python_world : world :=
  World ∅ [Line "y"] [] no_terminal [] ∅ "/usr/bin/python3" "posix".

(** A checkout with requirements.txt and an .env, on a system where pip
    installs at once and the application later exits with status 3. *)
Definition ready_runs (n : nat) : run_event :=
  match n with
  | O => Exits (Completed 0 "ok" EmptyString)
  | _ => Exits (Completed 3 EmptyString EmptyString)
  end.

Definition ready_world : world :=
  World {[ "requirements.txt" := File "flask"; ".env" := File "GEMINI_API_KEY=k" ]}
        [] [] ready_runs [] ∅ "/usr/bin/python3" "posix".


(** A checkout where pip fails for another reason. *)
Definition broken_pip_world : world :=
  World {[ "requirements.txt" := File "flask" ]} [] []
        (fun _ => Exits (Completed 2 EmptyString "no network")) [] ∅
        "/usr/bin/python3" "posix".

(** An old .venv without an interpreter inside: pip refuses the
    system-managed interpreter, .venv is there, and .venv/bin/python cannot
    be started. *)
Definition stale_venv_runs (n : nat) : run_event :=
  match n with
  | O => Exits (Completed 1 EmptyString "error: externally-managed-environment")
  | _ => CannotStart
  end.

Definition stale_venv_world : world :=
  World {[ ".venv" := Dir ]} [] [] stale_venv_runs [] ∅ "/usr/bin/python3" "posix".

(** A line that starts with a colon and goes on with an equals sign. *)
Definition colon_equals_line : string := ":=value".

(** ** Text lemmas *)

#[local] Arguments String.append !s1 s2 : simpl nomatch.

Lemma append_nil_r (s : string) : s +:+ "" = s.
Proof. induction s as [|c s IH]; simpl; [reflexivity | now rewrite IH]. Qed.

Lemma append_assoc (a b c : string) : (a +:+ b) +:+ c = a +:+ b +:+ c.
Proof. induction a as [|x a IH]; simpl; [reflexivity | now rewrite IH]. Qed.

Lemma has_char_app (c : ascii) (a b : string) :
  Py.has_char c (a +:+ b) = Py.has_char c a || Py.has_char c b.
Proof.
  induction a as [|x a IH]; simpl; [reflexivity |].
  rewrite IH. now rewrite orb_assoc.
Qed.

Lemma split1_absent (c : ascii) (s : string) :
  Py.has_char c s = false -> Py.split1 c s = (s, None).
Proof.
  induction s as [|x s IH]; simpl; [reflexivity |].
  intros H. apply orb_false_iff in H as [Hx Hs].
  rewrite Hx, (IH Hs). reflexivity.
Qed.

Lemma split1_first (c : ascii) (a b : string) :
  Py.has_char c a = false -> Py.split1 c (a +:+ String c b) = (a, Some b).
Proof.
  induction a as [|x a IH]; simpl.
  - intros _. now rewrite Ascii.eqb_refl.
  - intros H. apply orb_false_iff in H as [Hx Ha].
    rewrite Hx, (IH Ha). reflexivity.
Qed.

Lemma has_char_split (c : ascii) (s : string) :
  Py.has_char c s = true ->
  exists a b, s = a +:+ String c b /\ Py.has_char c a = false.
Proof.
  induction s as [|x s IH]; simpl; [discriminate |].
  destruct (Ascii.eqb c x) eqn:Hx; simpl.
  - intros _. apply Ascii.eqb_eq in Hx as <-. exists EmptyString, s. split; reflexivity.
  - intros H. destruct (IH H) as (a & b & -> & Ha).
    exists (String x a), b. split; [reflexivity |]. simpl. now rewrite Hx.
Qed.

(** ** The line parser *)

Lemma parse_key_line_equals (a b : string) :
  Py.has_char "=" a = false ->
  _parse_key_line (a +:+ "=" +:+ b) = Some (Py.strip a, Py.strip b).
Proof.
  intros Ha. unfold _parse_key_line, parse_with.
  rewrite has_char_app. simpl Py.has_char. rewrite orb_true_r.
  simpl String.append. rewrite (split1_first _ _ _ Ha). reflexivity.
Qed.

Lemma parse_key_line_colon (a b : string) :
  Py.has_char "=" (a +:+ ":" +:+ b) = false ->
  Py.has_char ":" a = false ->
  _parse_key_line (a +:+ ":" +:+ b) = Some (Py.strip a, Py.strip b).
Proof.
  intros Hno Ha. unfold _parse_key_line, parse_with.
  rewrite Hno, has_char_app. simpl Py.has_char. rewrite orb_true_r.
  simpl String.append. rewrite (split1_first _ _ _ Ha). reflexivity.
Qed.

Lemma parse_key_line_none (line : string) :
  Py.has_char "=" line = false -> Py.has_char ":" line = false ->
  _parse_key_line line = None.
Proof.
  intros H1 H2. unfold _parse_key_line, parse_with. now rewrite H1, H2.
Qed.

Lemma parse_key_line_some_sep (line key value : string) :
  _parse_key_line line = Some (key, value) ->
  Py.has_char "=" line = true \/ Py.has_char ":" line = true.
Proof.
  intros H. destruct (Py.has_char "=" line) eqn:H1; [now left |].
  destruct (Py.has_char ":" line) eqn:H2; [now right |].
  now rewrite (parse_key_line_none _ H1 H2) in H.
Qed.

Lemma process_line_skipped (st : parse_state) (raw_line : string) :
  is_effective (Py.strip raw_line) = false -> process_line st raw_line = st.
Proof.
  unfold is_effective, process_line. destruct st as [values sequential].
  intros H. apply negb_false_iff in H. now rewrite H.
Qed.

Lemma process_line_unlabeled (values : Dict.t) (sequential : list string)
    (raw_line : string) :
  is_effective (Py.strip raw_line) = true ->
  _parse_key_line (Py.strip raw_line) = None ->
  process_line (values, sequential) raw_line =
  (values,
   sequential ++ [_strip_quotes (_remove_inline_comment (Py.strip raw_line))]).
Proof.
  unfold is_effective, process_line. intros H Hp.
  apply negb_true_iff in H. now rewrite H, Hp.
Qed.

Lemma process_line_labeled (values : Dict.t) (sequential : list string)
    (raw_line key value : string) :
  is_effective (Py.strip raw_line) = true ->
  _parse_key_line (Py.strip raw_line) = Some (key, value) ->
  process_line (values, sequential) raw_line =
  (Dict.setdefault (stored_key key)
     (_strip_quotes (_remove_inline_comment value)) values,
   sequential).
Proof.
  unfold is_effective, process_line, stored_key. intros H Hp.
  apply negb_true_iff in H. rewrite H, Hp.
  destruct (Py.contains "GEMINI" (Py.upper key) && Py.contains "API_KEY" (Py.upper key));
    [reflexivity |].
  destruct (Py.contains "OPENAI" (Py.upper key) && Py.contains "API_KEY" (Py.upper key));
    reflexivity.
Qed.

(** The dictionary after a line depends on the entry the line offers. *)
Lemma process_line_values (st : parse_state) (raw_line : string) :
  fst (process_line st raw_line) =
  match entry_of_line raw_line with
  | Some (k, v) => Dict.setdefault k v (fst st)
  | None => fst st
  end.
Proof.
  destruct st as [values sequential]. unfold entry_of_line.
  destruct (is_effective (Py.strip raw_line)) eqn:He.
  - destruct (_parse_key_line (Py.strip raw_line)) as [[key value]|] eqn:Hp.
    + now rewrite (process_line_labeled _ _ _ _ _ He Hp).
    + now rewrite (process_line_unlabeled _ _ _ He Hp).
  - now rewrite (process_line_skipped _ _ He).
Qed.

Lemma fold_process_values (ls : list string) (st : parse_state) :
  fst (fold_left process_line ls st) = fold_left offer ls (fst st).
Proof.
  revert st. induction ls as [|l ls IH]; intros st; simpl; [reflexivity |].
  rewrite IH, process_line_values. reflexivity.
Qed.

(** ** Dictionary lemmas *)

Lemma lookup_app (k : string) (d d' : Dict.t) :
  Dict.lookup k (d ++ d') =
  match Dict.lookup k d with
  | Some v => Some v
  | None => Dict.lookup k d'
  end.
Proof.
  induction d as [|[k0 v0] d IH]; simpl; [reflexivity |].
  destruct (String.eqb k k0); [reflexivity | exact IH].
Qed.

Lemma lookup_setdefault (k k' v : string) (d : Dict.t) :
  Dict.lookup k (Dict.setdefault k' v d) =
  match Dict.lookup k d with
  | Some v0 => Some v0
  | None => if String.eqb k k' then Some v else None
  end.
Proof.
  unfold Dict.setdefault, Dict.mem.
  destruct (Dict.lookup k' d) as [v1|] eqn:Hk'.
  - destruct (Dict.lookup k d) eqn:Hk; [reflexivity |].
    destruct (String.eqb k k') eqn:E; [| reflexivity].
    apply String.eqb_eq in E. subst k'. congruence.
  - rewrite lookup_app. simpl. reflexivity.
Qed.

Lemma lookup_setdefault_keep (k k' v v' : string) (d : Dict.t) :
  Dict.lookup k d = Some v -> Dict.lookup k (Dict.setdefault k' v' d) = Some v.
Proof. intros H. now rewrite lookup_setdefault, H. Qed.

Lemma lookup_setdefault_other (k k' v : string) (d : Dict.t) :
  k <> k' -> Dict.lookup k (Dict.setdefault k' v d) = Dict.lookup k d.
Proof.
  intros Hne. rewrite lookup_setdefault.
  destruct (Dict.lookup k d); [reflexivity |].
  destruct (String.eqb k k') eqn:E; [| reflexivity].
  apply String.eqb_eq in E. contradiction.
Qed.

Lemma setdefault_present (k v : string) (d : Dict.t) :
  Dict.mem k d = true -> Dict.setdefault k v d = d.
Proof. unfold Dict.setdefault. now intros ->. Qed.

Lemma offer_keep (k v : string) (d : Dict.t) (l : string) :
  Dict.lookup k d = Some v -> Dict.lookup k (offer d l) = Some v.
Proof.
  intros H. unfold offer. destruct (entry_of_line l) as [[k' v']|]; [| exact H].
  now apply lookup_setdefault_keep.
Qed.

Lemma fold_offer_keep (k v : string) (ls : list string) (d : Dict.t) :
  Dict.lookup k d = Some v -> Dict.lookup k (fold_left offer ls d) = Some v.
Proof.
  revert d. induction ls as [|l ls IH]; intros d H; simpl; [exact H |].
  apply IH. now apply offer_keep.
Qed.

Lemma fold_offer_untouched (k : string) (ls : list string) (d : Dict.t) :
  (forall l v, In l ls -> entry_of_line l <> Some (k, v)) ->
  Dict.lookup k (fold_left offer ls d) = Dict.lookup k d.
Proof.
  revert d. induction ls as [|l ls IH]; intros d H; simpl; [reflexivity |].
  rewrite IH by (intros l' v' Hin; apply H; now right).
  unfold offer. destruct (entry_of_line l) as [[k' v']|] eqn:E; [| reflexivity].
  apply lookup_setdefault_other. intros ->. apply (H l v'); [now left | exact E].
Qed.

(** ** The positional fallback *)

Lemma GEMINI_neq_OPENAI : GEMINI_API_KEY <> OPENAI_API_KEY.
Proof. discriminate. Qed.

Lemma fill_sequential_keep (k v : string) (st : parse_state) :
  Dict.lookup k (fst st) = Some v -> Dict.lookup k (fill_sequential st) = Some v.
Proof.
  destruct st as [values sequential]. simpl. intros H.
  destruct sequential as [|s0 [|s1 tl]]; simpl; [exact H | |].
  - destruct (truthy s0); [now apply lookup_setdefault_keep | exact H].
  - destruct (truthy s1), (truthy s0);
      repeat apply lookup_setdefault_keep; exact H.
Qed.

Lemma fill_sequential_other (k : string) (st : parse_state) :
  k <> GEMINI_API_KEY -> k <> OPENAI_API_KEY ->
  Dict.lookup k (fill_sequential st) = Dict.lookup k (fst st).
Proof.
  destruct st as [values sequential]. simpl. intros HG HO.
  destruct sequential as [|s0 [|s1 tl]]; simpl; [reflexivity | |].
  - destruct (truthy s0); [now apply lookup_setdefault_other | reflexivity].
  - destruct (truthy s1), (truthy s0);
      rewrite ?lookup_setdefault_other by assumption; reflexivity.
Qed.

Lemma fill_sequential_primary (values : Dict.t) (sequential : list string) :
  Dict.lookup GEMINI_API_KEY (fill_sequential (values, sequential)) =
  slot_value (Dict.lookup GEMINI_API_KEY values) (sequential !! 0%nat).
Proof.
  unfold slot_value.
  destruct sequential as [|s0 [|s1 tl]]; simpl.
  - now destruct (Dict.lookup GEMINI_API_KEY values).
  - destruct (truthy s0); rewrite ?lookup_setdefault;
      now destruct (Dict.lookup GEMINI_API_KEY values).
  - destruct (truthy s1), (truthy s0); rewrite ?lookup_setdefault;
      rewrite ?lookup_setdefault;
      now destruct (Dict.lookup GEMINI_API_KEY values).
Qed.

Lemma fill_sequential_secondary (values : Dict.t) (sequential : list string) :
  Dict.lookup OPENAI_API_KEY (fill_sequential (values, sequential)) =
  slot_value (Dict.lookup OPENAI_API_KEY values) (sequential !! 1%nat).
Proof.
  unfold slot_value.
  destruct sequential as [|s0 [|s1 tl]]; simpl.
  - now destruct (Dict.lookup OPENAI_API_KEY values).
  - destruct (truthy s0); rewrite ?lookup_setdefault;
      now destruct (Dict.lookup OPENAI_API_KEY values).
  - destruct (truthy s1), (truthy s0); rewrite ?lookup_setdefault;
      rewrite ?lookup_setdefault;
      now destruct (Dict.lookup OPENAI_API_KEY values).
Qed.

Lemma parse_lines_values (content : string) :
  fst (parse_lines content) = fold_left offer (Py.splitlines content) Dict.empty.
Proof. unfold parse_lines. now rewrite fold_process_values. Qed.

Lemma load_first_entry (content : string) (pre post : list string)
    (l k v : string) :
  Py.splitlines content = pre ++ l :: post ->
  entry_of_line l = Some (k, v) ->
  (forall l' v', In l' pre -> entry_of_line l' <> Some (k, v')) ->
  Dict.lookup k (_load_keys_file (Some content)) = Some v.
Proof.
  intros Hlines Hl Hpre. unfold _load_keys_file.
  apply fill_sequential_keep. rewrite parse_lines_values, Hlines.
  rewrite fold_left_app. simpl. apply fold_offer_keep.
  unfold offer at 1. rewrite Hl, lookup_setdefault.
  rewrite fold_offer_untouched by exact Hpre.
  simpl. now rewrite String.eqb_refl.
Qed.

(** ** Properties of the key-file parser *)

(** C6.  A line is split at the first [=] if it has one, otherwise at the
    first [:] if it has one; the trimmed left part is the key and the
    trimmed right part the value.  A line that the loop does not skip and
    that has neither separator is appended, comment-trimmed and
    quote-stripped, to the sequential list and leaves the dictionary as it
    is; a labeled line leaves the sequential list as it is. *)
Theorem parse_key_line_separators (line : string) :
  (forall a b, line = a +:+ "=" +:+ b -> Py.has_char "=" a = false ->
     _parse_key_line line = Some (Py.strip a, Py.strip b)) /\
  (forall a b, Py.has_char "=" line = false ->
     line = a +:+ ":" +:+ b -> Py.has_char ":" a = false ->
     _parse_key_line line = Some (Py.strip a, Py.strip b)) /\
  (Py.has_char "=" line = false -> Py.has_char ":" line = false ->
     _parse_key_line line = None /\
     forall values sequential raw_line,
       Py.strip raw_line = line -> is_effective line = true ->
       process_line (values, sequential) raw_line =
       (values, sequential ++ [_strip_quotes (_remove_inline_comment line)])) /\
  (forall key value values sequential raw_line,
     Py.strip raw_line = line -> is_effective line = true ->
     _parse_key_line line = Some (key, value) ->
     snd (process_line (values, sequential) raw_line) = sequential).
Proof.
  repeat split.
  - intros a b -> Ha. now apply parse_key_line_equals.
  - intros a b Hno -> Ha. now apply parse_key_line_colon.
  - now apply parse_key_line_none.
  - intros values sequential raw_line <- He.
    apply process_line_unlabeled; [exact He |].
    now apply parse_key_line_none.
  - intros key value values sequential raw_line <- He Hp.
    now rewrite (process_line_labeled _ _ _ _ _ He Hp).
Qed.


(** C3, as the code has it.  The positional fallback never changes a key
    that a labeled line has set, touches no key other than the two
    credential slots, and adds nothing when both slots were set by labeled
    lines or when the sequential list is empty. *)
Theorem fallback_respects_labeled_slots (content : string) :
  let values := fst (parse_lines content) in
  let sequential := snd (parse_lines content) in
  let final := _load_keys_file (Some content) in
  (forall k v, Dict.lookup k values = Some v -> Dict.lookup k final = Some v) /\
  (forall k, k <> GEMINI_API_KEY -> k <> OPENAI_API_KEY ->
     Dict.lookup k final = Dict.lookup k values) /\
  (Dict.mem GEMINI_API_KEY values = true ->
   Dict.mem OPENAI_API_KEY values = true -> final = values) /\
  (sequential = [] -> final = values).
Proof.
  simpl. repeat split.
  - intros k v. apply fill_sequential_keep.
  - intros k. apply fill_sequential_other.
  - destruct (parse_lines content) as [values sequential]. simpl.
    intros HG HO. destruct sequential as [|s0 [|s1 tl]]; [reflexivity | |].
    + destruct (truthy s0); [now apply setdefault_present | reflexivity].
    + rewrite (setdefault_present _ _ _ HG).
      destruct (truthy s0), (truthy s1);
        rewrite ?(setdefault_present _ _ _ HO); reflexivity.
  - destruct (parse_lines content) as [values sequential]. simpl.
    now intros ->.
Qed.

(** C4.  After the loop each credential slot holds the value of its
    labeled line if there was one; otherwise the primary slot takes the
    entry at index 0 of the sequential list and the secondary slot the
    entry at index 1, each only if that entry exists and is a non-empty
    string.  A file of exactly two lines without separator, whose values
    are non-empty, gives the first value to the primary slot and the
    second to the secondary slot. *)
Theorem positional_fallback (content : string) :
  let values := fst (parse_lines content) in
  let sequential := snd (parse_lines content) in
  let final := _load_keys_file (Some content) in
  Dict.lookup GEMINI_API_KEY final =
    slot_value (Dict.lookup GEMINI_API_KEY values) (sequential !! 0%nat) /\
  Dict.lookup OPENAI_API_KEY final =
    slot_value (Dict.lookup OPENAI_API_KEY values) (sequential !! 1%nat) /\
  (forall l1 l2,
     Py.splitlines content = [l1; l2] ->
     is_effective (Py.strip l1) = true -> has_separator (Py.strip l1) = false ->
     is_effective (Py.strip l2) = true -> has_separator (Py.strip l2) = false ->
     clean (Py.strip l1) <> EmptyString -> clean (Py.strip l2) <> EmptyString ->
     final = [(GEMINI_API_KEY, clean (Py.strip l1));
              (OPENAI_API_KEY, clean (Py.strip l2))]).
Proof.
  simpl. split; [| split].
  - destruct (parse_lines content) as [values sequential].
    apply fill_sequential_primary.
  - destruct (parse_lines content) as [values sequential].
    apply fill_sequential_secondary.
  - intros l1 l2 Hlines E1 S1 E2 S2 V1 V2.
    unfold parse_lines. rewrite Hlines. cbn [fold_left]. unfold Dict.empty.
    apply orb_false_iff in S1 as [S1e S1c], S2 as [S2e S2c].
    rewrite (process_line_unlabeled _ _ _ E1 (parse_key_line_none _ S1e S1c)).
    rewrite (process_line_unlabeled _ _ _ E2 (parse_key_line_none _ S2e S2c)).
    fold (clean (Py.strip l1)) (clean (Py.strip l2)). simpl.
    assert (T : forall s, s <> EmptyString -> truthy s = true).
    { intros s Hs. unfold truthy. apply negb_true_iff.
      apply String.eqb_neq. exact Hs. }
    rewrite (T _ V1), (T _ V2). reflexivity.
Qed.

(** ** The layout of the environment file *)

Lemma join_newline_unlines (l : string) (ls : list string) :
  Py.join Py.newline (l :: ls) +:+ Py.newline = unlines (l :: ls).
Proof.
  unfold Py.join. revert l. induction ls as [|l' ls IH]; intros l.
  - reflexivity.
  - change (String.concat Py.newline (l :: l' :: ls))
      with (l +:+ Py.newline +:+ String.concat Py.newline (l' :: ls)).
    rewrite !append_assoc, IH. reflexivity.
Qed.

Lemma unlines_app (xs ys : list string) :
  unlines (xs ++ ys) = unlines xs +:+ unlines ys.
Proof.
  induction xs as [|x xs IH]; simpl; [reflexivity |].
  now rewrite IH, !append_assoc.
Qed.

Lemma unlines_snoc (xs : list string) (x : string) :
  unlines (xs ++ [x]) = (unlines xs +:+ x) +:+ Py.newline.
Proof.
  rewrite unlines_app. simpl. now rewrite append_assoc.
Qed.

Lemma format_env_unlines (values : Dict.t) :
  _format_env values =
  unlines
    (env_header
     :: env_line GEMINI_API_KEY (Dict.get values GEMINI_API_KEY EmptyString)
     :: env_line OPENAI_API_KEY (Dict.get values OPENAI_API_KEY EmptyString)
     :: map (fun kv => env_line (fst kv) (snd kv)) (extra_keys values)).
Proof. unfold _format_env. cbv zeta. cbn [app map]. apply join_newline_unlines. Qed.

(** A line of a non-empty block of lines starts after a newline when it
    is not the first one, and ends at a newline. *)
Lemma unlines_line_inside (first l : string) (ls : list string) :
  In l ls ->
  exists a b,
    unlines (first :: ls) = a +:+ Py.newline +:+ l +:+ Py.newline +:+ b.
Proof.
  intros Hin. apply in_split in Hin as (ls1 & ls2 & ->).
  destruct (exists_last (l := first :: ls1)) as (init & lst & E); [discriminate |].
  change (first :: ls1 ++ l :: ls2) with ((first :: ls1) ++ l :: ls2).
  rewrite E, unlines_app, unlines_snoc. simpl unlines.
  exists (unlines init +:+ lst), (unlines ls2).
  now rewrite !append_assoc.
Qed.

Lemma format_env_extra_line (values : Dict.t) (k v : string) :
  In (k, v) (extra_keys values) ->
  exists a b,
    _format_env values = a +:+ Py.newline +:+ env_line k v +:+ Py.newline +:+ b.
Proof.
  intros Hin. rewrite format_env_unlines.
  apply unlines_line_inside. right. right.
  apply (in_map (fun kv => env_line (fst kv) (snd kv))) in Hin. exact Hin.
Qed.

(** ** Extra keys come out in first-encountered order *)

Lemma lookup_In (k v : string) (d : Dict.t) :
  Dict.lookup k d = Some v -> In (k, v) d.
Proof.
  induction d as [|[k0 v0] d IH]; simpl; [discriminate |].
  destruct (String.eqb k k0) eqn:E.
  - apply String.eqb_eq in E as ->. intros [= ->]. now left.
  - intros H. right. now apply IH.
Qed.

Lemma extra_keys_app (d d' : Dict.t) :
  extra_keys (d ++ d') = extra_keys d ++ extra_keys d'.
Proof. apply List.filter_app. Qed.

Lemma extra_keys_setdefault_slot (k v : string) (d : Dict.t) :
  is_well_known k = true -> extra_keys (Dict.setdefault k v d) = extra_keys d.
Proof.
  intros Hk. unfold Dict.setdefault. destruct (Dict.mem k d); [reflexivity |].
  rewrite extra_keys_app. unfold extra_keys at 2. simpl. rewrite Hk. simpl.
  apply app_nil_r.
Qed.

Lemma mem_extra_keys (k : string) (d : Dict.t) :
  is_well_known k = false ->
  Dict.mem k d = inb k (Dict.keys (extra_keys d)).
Proof.
  intros Hk. unfold Dict.mem. induction d as [|[k0 v0] d IH]; simpl; [reflexivity |].
  destruct (String.eqb k k0) eqn:E.
  - apply String.eqb_eq in E as <-. rewrite Hk. simpl.
    now rewrite String.eqb_refl.
  - destruct (is_well_known k0); simpl; [exact IH |].
    rewrite E. exact IH.
Qed.

Lemma extra_keys_fill_sequential (st : parse_state) :
  extra_keys (fill_sequential st) = extra_keys (fst st).
Proof.
  destruct st as [values sequential]. simpl.
  destruct sequential as [|s0 [|s1 tl]]; [reflexivity | |].
  - destruct (truthy s0); [| reflexivity].
    now apply extra_keys_setdefault_slot.
  - destruct (truthy s1), (truthy s0);
      rewrite ?extra_keys_setdefault_slot by reflexivity; reflexivity.
Qed.

Lemma filter_filter_bool {A} (f g : A -> bool) (l : list A) :
  List.filter f (List.filter g l) = List.filter (fun x => g x && f x) l.
Proof.
  induction l as [|x l IH]; simpl; [reflexivity |].
  destruct (g x); simpl; [| exact IH].
  destruct (f x); now rewrite IH.
Qed.

Lemma filter_all {A} (l : list A) : List.filter (fun _ => true) l = l.
Proof. induction l as [|x l IH]; simpl; [reflexivity | now rewrite IH]. Qed.

Lemma inb_app (k : string) (xs ys : list string) :
  inb k (xs ++ ys) = inb k xs || inb k ys.
Proof. apply existsb_app. Qed.

Lemma fold_offer_extra_keys (ls : list string) (d : Dict.t) :
  Dict.keys (extra_keys (fold_left offer ls d)) =
  Dict.keys (extra_keys d) ++
  List.filter (fun k => negb (inb k (Dict.keys (extra_keys d))))
    (first_seen (extra_labels ls)).
Proof.
  revert d. induction ls as [|l ls IH]; intros d.
  - simpl. now rewrite app_nil_r.
  - cbn [fold_left]. rewrite IH. unfold extra_labels. cbn [omap list_omap].
    unfold offer at 1 2, extra_label at 2.
    destruct (entry_of_line l) as [[k v]|]; [| reflexivity].
    destruct (is_well_known k) eqn:Hk.
    + now rewrite (extra_keys_setdefault_slot _ _ _ Hk).
    + cbn [first_seen List.filter].
      unfold Dict.setdefault. rewrite (mem_extra_keys _ _ Hk).
      destruct (inb k (Dict.keys (extra_keys d))) eqn:Hin; cbn [negb].
      * f_equal. rewrite filter_filter_bool. apply List.filter_ext.
        intros x. destruct (String.eqb x k) eqn:E; simpl.
        -- apply String.eqb_eq in E as ->. now rewrite Hin.
        -- reflexivity.
      * rewrite extra_keys_app. unfold Dict.keys. rewrite map_app.
        unfold extra_keys at 2. simpl. rewrite Hk. simpl.
        rewrite <- app_assoc. simpl. do 2 f_equal.
        rewrite filter_filter_bool. apply List.filter_ext.
        intros x. fold (Dict.keys (extra_keys d)).
        rewrite inb_app. simpl. rewrite orb_false_r, negb_orb.
        apply andb_comm.
Qed.

Lemma load_extra_keys (content : string) :
  Dict.keys (extra_keys (_load_keys_file (Some content))) =
  first_seen (extra_labels (Py.splitlines content)).
Proof.
  unfold _load_keys_file.
  rewrite extra_keys_fill_sequential, parse_lines_values, fold_offer_extra_keys.
  simpl. apply filter_all.
Qed.

(** ** Comment trimming and quote stripping *)

Lemma remove_inline_comment_hash (a b : string) :
  Py.has_char "#" a = false ->
  _remove_inline_comment (a +:+ "#" +:+ b) = Py.strip a.
Proof.
  intros Ha. unfold _remove_inline_comment. simpl String.append.
  now rewrite (split1_first _ _ _ Ha).
Qed.

Lemma remove_inline_comment_plain (s : string) :
  Py.has_char "#" s = false -> _remove_inline_comment s = Py.strip s.
Proof.
  intros Hs. unfold _remove_inline_comment. now rewrite (split1_absent _ _ Hs).
Qed.

Lemma snoc_not_empty (s : string) (c : ascii) : s +:+ String c "" <> "".
Proof. destruct s; discriminate. Qed.

Lemma last_char_snoc (s : string) (c : ascii) :
  Py.last_char (s +:+ String c "") = Some c.
Proof.
  induction s as [|x s IH]; [reflexivity |].
  simpl. destruct (s +:+ String c "") eqn:E; [| exact IH].
  now apply snoc_not_empty in E.
Qed.

Lemma drop_last_snoc (s : string) (c : ascii) :
  Py.drop_last (s +:+ String c "") = s.
Proof.
  induction s as [|x s IH]; [reflexivity |].
  simpl. destruct (s +:+ String c "") eqn:E.
  - now apply snoc_not_empty in E.
  - now rewrite IH.
Qed.

Lemma last_char_split (s : string) (c : ascii) :
  Py.last_char s = Some c -> s = Py.drop_last s +:+ String c "".
Proof.
  induction s as [|x s IH]; [discriminate |].
  simpl. destruct s as [|y s].
  - now intros [= ->].
  - intros H. simpl String.append. f_equal. now apply IH.
Qed.

Lemma rstrip_snoc (s : string) (c : ascii) :
  Py.isspace c = false -> Py.rstrip (s +:+ String c "") = s +:+ String c "".
Proof.
  intros Hc. induction s as [|x s IH]; simpl.
  - now rewrite Hc.
  - rewrite IH. destruct (s +:+ String c "") eqn:E; [| reflexivity].
    now apply snoc_not_empty in E.
Qed.

Lemma is_quote_not_space (q : ascii) : is_quote q = true -> Py.isspace q = false.
Proof.
  unfold is_quote. intros H. apply orb_true_iff in H as [H | H];
    apply Ascii.eqb_eq in H; subst q; reflexivity.
Qed.

Lemma strip_quoted (q : ascii) (body : string) :
  is_quote q = true ->
  Py.strip (String q (body +:+ String q "")) = String q (body +:+ String q "").
Proof.
  intros Hq. pose proof (is_quote_not_space _ Hq) as Hs. unfold Py.strip.
  change (String q (body +:+ String q "")) with (String q body +:+ String q "").
  rewrite (rstrip_snoc _ _ Hs). simpl. now rewrite Hs.
Qed.

Lemma strip_quotes_quoted (v : string) (q : ascii) (body : string) :
  is_quote q = true ->
  Py.strip v = String q (body +:+ String q "") ->
  _strip_quotes v = body.
Proof.
  intros Hq Hv. unfold _strip_quotes. rewrite Hv, last_char_snoc.
  now rewrite Ascii.eqb_refl, Hq, drop_last_snoc.
Qed.

Lemma strip_quotes_plain (v : string) :
  (forall q body, is_quote q = true ->
     Py.strip v <> String q (body +:+ String q "")) ->
  _strip_quotes v = Py.strip v.
Proof.
  intros Hno. unfold _strip_quotes.
  destruct (Py.strip v) as [|first rest] eqn:Hv; [reflexivity |].
  destruct (Py.last_char rest) as [last|] eqn:Hl; [| reflexivity].
  destruct (Ascii.eqb first last && is_quote first) eqn:Hc; [| reflexivity].
  apply andb_true_iff in Hc as [He Hq]. apply Ascii.eqb_eq in He. subst last.
  exfalso. apply (Hno first (Py.drop_last rest) Hq).
  now rewrite <- (last_char_split _ _ Hl).
Qed.

(** ** The launcher *)

(** C9.  [run_application] starts exactly one process, the resolved
    interpreter with [-m app.main], whose environment is the inherited one
    with PORT set to 25254.  Whatever the exit status of the child, and
    also when the user interrupts it, the launcher returns normally: a
    non-zero status is reported by an error message, an interrupt by the
    stop message, and no file is touched.  The one other course, outside
    the two cases of the claim, is an interpreter that cannot be started:
    no process exists then, and the OSError of [subprocess.run] leaves the
    launcher after the banner. *)
Theorem run_application_contained (python_exec : string) (w : world) :
  let fate := runs w (length (calls w)) in
  let cmd := [python_exec; "-m"; "app.main"] in
  let '(r, w') := run_application python_exec w in
  r = match fate with
      | Exits _ | Interrupted => Returns tt
      | CannotStart => Raises OSError
      end /\
  calls w' =
    calls w ++
    match fate with
    | Exits _ | Interrupted =>
        [Call cmd true false (Some (<["PORT" := "25254"]> (environ w)))]
    | CannotStart => []
    end /\
  fs w' = fs w /\
  printed w' =
    printed w ++ map Print banner ++
    match fate with
    | Interrupted => [Print stopped_message]
    | Exits c =>
        if (returncode c =? 0)%Z then []
        else [PrintExn app_failed_prefix (CalledProcessError cmd (returncode c))]
    | CannotStart => []
    end.
Proof.
  unfold run_application, banner, print_all, bind, try_except, print,
    get_world, subprocess_run, ret.
  simpl. destruct (runs w (length (calls w))) as [c| |]; simpl.
  - destruct (returncode c =? 0)%Z; simpl;
      repeat split; rewrite <- ?app_assoc; reflexivity.
  - repeat split; rewrite <- ?app_assoc; reflexivity.
  - repeat split; rewrite <- ?app_assoc, ?app_nil_r; reflexivity.
Qed.

(** ** Environment-file creation *)

Lemma read_if_exists_run (p : string) (w : world) :
  read_if_exists p w =
  (match fs w !! p with
   | None => Returns None
   | Some (File content) => Returns (Some content)
   | Some Dir => Raises OSError
   end, w).
Proof.
  unfold read_if_exists, bind, path_exists, read_text, ret.
  destruct (fs w !! p) as [[content|]|] eqn:E; cbn; rewrite ?E; reflexivity.
Qed.

Lemma prompt_for_keys_run (w : world) :
  _prompt_for_keys w =
  let w1 := add_output (Prompt gemini_prompt) (add_output (Print prompt_notice) w) in
  match stdin w with
  | [] => (Raises EOFError, w1)
  | CtrlC :: rest => (Raises KeyboardInterrupt, set_stdin rest w1)
  | Line a :: rest =>
      let w2 := add_output (Prompt openai_prompt) (set_stdin rest w1) in
      match rest with
      | [] => (Raises EOFError, w2)
      | CtrlC :: rest' => (Raises KeyboardInterrupt, set_stdin rest' w2)
      | Line b :: rest' =>
          (Returns [(GEMINI_API_KEY, Py.strip a); (OPENAI_API_KEY, Py.strip b)],
           set_stdin rest' w2)
      end
  end.
Proof.
  unfold _prompt_for_keys, bind, print, input, ret. cbn.
  destruct (stdin w) as [|[a|] [|[b|] rest']]; reflexivity.
Qed.

Ltac unfold_run :=
  cbv beta delta
    [create_env_from_keys setup_environment _prompt_for_keys read_if_exists
     install_dependencies _install_with_virtualenv _resolve_venv_python
     run_application
     try_except bind print print_exn stdout_write stderr_write input
     path_exists read_text write_text subprocess_run ret get_world].

Ltac step_run :=
  repeat progress
         (cbn [fst snd fs stdin printed calls runs environ sys_executable os_name
               add_output set_stdin set_fs add_call
               create_env_handler is_Exception negb Dict.is_empty];
          try match goal with
          | H : fs ?w !! ?p = _ |- context [fs ?w !! ?p] => rewrite H
          | H : stdin ?w = _ |- context [stdin ?w] => rewrite H
          | H : Dict.is_empty ?d = _ |- context [Dict.is_empty ?d] => rewrite H
          | |- context [_load_keys_file None] =>
              change (_load_keys_file None) with (@nil (string * string))
          | |- context [bool_decide (is_Some None)] =>
              change (bool_decide (is_Some (@None node))) with false
          | |- context [bool_decide (is_Some (Some ?x))] =>
              change (bool_decide (is_Some (Some x))) with true
          end).

Ltac solve_run := unfold_run; step_run; reflexivity.

Lemma create_env_from_keys_returns (w : world) :
  fst (create_env_from_keys w) = Returns tt.
Proof.
  assert (Hprompt : forall file,
            fs w !! "Keys.txt" = File <$> file ->
            Dict.is_empty (_load_keys_file file) = true ->
            fst (create_env_from_keys w) = Returns tt).
  { intros file Hk Hv.
    destruct (stdin w) as [|[a|] [|[b|] rest]] eqn:Hin;
      [ | | destruct (fs w !! ".env") as [[old|]|] eqn:He | | | | ];
      destruct file; cbn [fmap option_fmap option_map] in Hk; solve_run. }
  destruct (fs w !! "Keys.txt") as [[content|]|] eqn:Hk.
  - destruct (Dict.is_empty (_load_keys_file (Some content))) eqn:Hv.
    + now apply (Hprompt (Some content)).
    + destruct (fs w !! ".env") as [[old|]|] eqn:He; solve_run.
  - solve_run.
  - now apply (Hprompt None).
Qed.

(** C8.  When Keys.txt gives no key and the user presses Ctrl-C at the
    first or at the second prompt, [create_env_from_keys] returns
    normally, leaves the file system as it was (no .env is written, not
    even partly), starts no process, and its last message is the abort
    message. *)
Theorem interrupt_aborts_env_creation (w : world) (file first : option string)
    (rest : list input_event) :
  fs w !! "Keys.txt" = File <$> file ->
  _load_keys_file file = [] ->
  stdin w = match first with Some a => [Line a] | None => [] end ++ CtrlC :: rest ->
  exists w',
    create_env_from_keys w = (Returns tt, w') /\
    fs w' = fs w /\
    calls w' = calls w /\
    stdin w' = rest /\
    printed w' =
      printed w ++
      [Print no_keys_notice; Print prompt_notice; Prompt gemini_prompt] ++
      match first with Some _ => [Prompt openai_prompt] | None => [] end ++
      [Print user_abort_message].
Proof.
  intros Hk Hv Hin.
  assert (He : Dict.is_empty (_load_keys_file file) = true) by now rewrite Hv.
  destruct file as [content|], first as [a|];
    cbn [fmap option_fmap option_map app] in Hk, Hin;
    (eexists; split; [solve_run |]);
    cbn [fs calls stdin printed add_output set_stdin];
    rewrite <- ?app_assoc; auto.
Qed.

(** The same seen from [setup_environment]: with no .env, the answer y
    and then Ctrl-C at the first prompt, there is still no .env. *)
Lemma setup_environment_interrupted (w : world) (answer : string)
    (rest : list input_event) :
  fs w !! ".env" = None ->
  fs w !! "Keys.txt" = None ->
  stdin w = Line answer :: CtrlC :: rest ->
  Py.lower answer = "y" ->
  fst (setup_environment w) = Returns tt /\
  fs (snd (setup_environment w)) = fs w.
Proof.
  intros He Hk Hin Hy. unfold_run. step_run. rewrite Hy.
  change (String.eqb "y" "y") with true. step_run. split; reflexivity.
Qed.

(** ** The dependency installer *)

Lemma length_snoc {A} (l : list A) (x : A) : length (l ++ [x]) = S (length l).
Proof. rewrite length_app. simpl. lia. Qed.

Lemma resolve_venv_python_run (w : world) :
  _resolve_venv_python venv_dir w = (Returns (venv_python_of (os_name w)), w).
Proof.
  unfold _resolve_venv_python, venv_python_of, bind, get_world, ret.
  now destruct (String.eqb (os_name w) "nt").
Qed.

Ltac step_install :=
  repeat progress
    (cbn [fst snd fs stdin printed calls runs environ sys_executable os_name
          add_output set_stdin set_fs add_call negb andb orb
          returncode stdout stderr argv check capture
          only_CalledProcessError venv_command pip_command];
     try match goal with
       | |- context [length (?l ++ [?x])] => rewrite (length_snoc l x)
       | H : runs ?w ?n = _ |- context [runs ?w ?n] => rewrite H
       | H : (?a =? ?b)%Z = _ |- context [(?a =? ?b)%Z] => rewrite H
       | H : Py.contains ?a ?b = _ |- context [Py.contains ?a ?b] => rewrite H
       | H : truthy ?a = _ |- context [truthy ?a] => rewrite H
       | H : bool_decide ?P = _ |- context [bool_decide ?P] => rewrite H
       | |- context [_resolve_venv_python venv_dir ?w] =>
           rewrite (resolve_venv_python_run w)
       end).

(** The fallback: what it returns and which processes it starts. *)
Lemma install_with_virtualenv_run (w : world) :
  let n := length (calls w) in
  let exe := sys_executable w in
  let vpy := venv_python_of (os_name w) in
  let present := bool_decide (is_Some (fs w !! venv_dir)) in
  let create := if present then [] else started_by (runs w n) (venv_command exe) in
  let created := present || succeeded (runs w n) in
  let m := if present then n else S n in
  let install :=
    if created then started_by (runs w m) (pip_command vpy true false) else [] in
  fst (_install_with_virtualenv w) =
    (if created then
       match runs w m with
       | Interrupted => Raises KeyboardInterrupt
       | CannotStart => Raises OSError
       | Exits c => if (returncode c =? 0)%Z then Returns (Some vpy) else Returns None
       end
     else
       match runs w n with
       | Interrupted => Raises KeyboardInterrupt
       | CannotStart => Raises OSError
       | Exits _ => Returns None
       end) /\
  calls (snd (_install_with_virtualenv w)) = calls w ++ create ++ install /\
  fs (snd (_install_with_virtualenv w)) = fs w.
Proof.
  cbv zeta.
  destruct (bool_decide (is_Some (fs w !! venv_dir))) eqn:Hp.
  - destruct (runs w (length (calls w))) as [c| |] eqn:H1;
      [destruct (returncode c =? 0)%Z eqn:R1 | |];
      cbv beta delta [_install_with_virtualenv try_except bind print print_exn
                      path_exists subprocess_run ret get_world];
      step_install; cbn [orb app succeeded started_by unstartable]; step_install;
      rewrite ?app_nil_r; auto.
  - destruct (runs w (length (calls w))) as [c| |] eqn:H1;
      [destruct (returncode c =? 0)%Z eqn:R1;
       [destruct (runs w (S (length (calls w)))) as [c'| |] eqn:H2;
        [destruct (returncode c' =? 0)%Z eqn:R2 | |] |] | |];
      cbv beta delta [_install_with_virtualenv try_except bind print print_exn
                      path_exists subprocess_run ret get_world];
      step_install; cbn [orb app succeeded started_by unstartable]; step_install;
      rewrite <- ?app_assoc, ?app_nil_r; auto.
Qed.

(** With the marker in the captured error text, [install_dependencies]
    hands over to the fallback. *)
Lemma install_dependencies_delegates (w : world) (c : completed) :
  runs w (length (calls w)) = Exits c ->
  (returncode c =? 0)%Z = false ->
  Py.contains externally_managed (stderr c) = true ->
  install_dependencies w = _install_with_virtualenv (after_pip w c).
Proof.
  intros H1 R1 Hm. unfold after_pip.
  destruct (truthy (stdout c)) eqn:To, (truthy (stderr c)) eqn:Te;
    cbv beta delta [install_dependencies bind print stdout_write stderr_write
                    subprocess_run ret get_world];
    step_install; reflexivity.
Qed.

Lemma install_dependencies_direct (w : world) :
  let exe := sys_executable w in
  match runs w (length (calls w)) with
  | Interrupted => fst (install_dependencies w) = Raises KeyboardInterrupt
  | CannotStart => fst (install_dependencies w) = Raises OSError
  | Exits c =>
      if (returncode c =? 0)%Z
      then fst (install_dependencies w) = Returns (Some exe)
      else if Py.contains externally_managed (stderr c) then True
      else fst (install_dependencies w) = Returns None /\
           calls (snd (install_dependencies w)) =
             calls w ++ [pip_command exe false true]
  end.
Proof.
  cbv zeta.
  destruct (runs w (length (calls w))) as [c| |] eqn:H1;
    [destruct (returncode c =? 0)%Z eqn:R1;
     [| destruct (Py.contains externally_managed (stderr c)) eqn:Hm;
        [exact I |]];
     destruct (truthy (stdout c)) eqn:To, (truthy (stderr c)) eqn:Te | |];
    cbv beta delta [install_dependencies bind print stdout_write stderr_write
                    subprocess_run ret get_world];
    step_install; auto.
Qed.

(** C7, as the code has it.  [install_dependencies] returns the current
    interpreter exactly when its install command exits with status zero.
    On a non-zero exit with the externally-managed marker in the captured
    error text it hands over to [_install_with_virtualenv], which starts
    the command creating .venv once if .venv does not exist and that
    command can be started, and not at all if .venv exists; it returns
    None when the creation or the install inside .venv exits with a
    non-zero status.  Any other non-zero exit gives None.  A command that
    cannot be started is the failure no step handles: the OSError of
    [subprocess.run] leaves the installer instead of a None. *)
Theorem install_dependencies_outcome (w : world) :
  sys_executable w <> venv_python_of (os_name w) ->
  let n := length (calls w) in
  let exe := sys_executable w in
  let present := bool_decide (is_Some (fs w !! venv_dir)) in
  let r := fst (install_dependencies w) in
  let started := calls (snd (install_dependencies w)) in
  (r = Returns (Some exe) <-> succeeded (runs w n) = true) /\
  (unstartable (runs w n) = true -> r = Raises OSError) /\
  (forall c, runs w n = Exits c -> failed (runs w n) = true ->
     if Py.contains externally_managed (stderr c)
     then
       install_dependencies w = _install_with_virtualenv (after_pip w c) /\
       (exists new,
          started = calls w ++ pip_command exe false true :: new /\
          length (List.filter is_venv_creation new) =
            if present || unstartable (runs w (S n)) then 0%nat else 1%nat) /\
       (present = false -> failed (runs w (S n)) = true -> r = Returns None) /\
       (present = false -> unstartable (runs w (S n)) = true ->
        r = Raises OSError) /\
       (present || succeeded (runs w (S n)) = true ->
        let m := if present then S n else S (S n) in
        (failed (runs w m) = true -> r = Returns None) /\
        (unstartable (runs w m) = true -> r = Raises OSError))
     else r = Returns None).
Proof.
  intros Hexe. cbv zeta.
  pose proof (install_dependencies_direct w) as Hd. cbv zeta in Hd.
  split; [| split].
  - destruct (runs w (length (calls w))) as [c| |] eqn:H1; cbn [succeeded].
    + destruct (returncode c =? 0)%Z eqn:R1; [now rewrite Hd |].
      destruct (Py.contains externally_managed (stderr c)) eqn:Hm.
      * rewrite (install_dependencies_delegates _ _ H1 R1 Hm).
        destruct (install_with_virtualenv_run (after_pip w c)) as (Hr & _).
        rewrite Hr. split; [| discriminate].
        replace (os_name (after_pip w c)) with (os_name w)
          by (unfold after_pip; now destruct (truthy (stdout c)), (truthy (stderr c))).
        repeat match goal with
               | |- context [if ?b then _ else _] => destruct b
               | |- context [match ?f with
                             | Exits _ => _ | Interrupted => _ | CannotStart => _
                             end] => destruct f
               end; intros E; try discriminate E;
          injection E as E; symmetry in E; contradiction.
      * destruct Hd as [-> _]. split; discriminate.
    + rewrite Hd. split; discriminate.
    + rewrite Hd. split; discriminate.
  - destruct (runs w (length (calls w))) as [c| |]; cbn [unstartable];
      try discriminate. intros _. exact Hd.
  - intros c H1 Hf. rewrite H1 in Hf, Hd. cbn [failed] in Hf.
    apply negb_true_iff in Hf. rewrite Hf in Hd.
    destruct (Py.contains externally_managed (stderr c)) eqn:Hm; [| apply Hd].
    pose proof (install_dependencies_delegates _ _ H1 Hf Hm) as Hdel.
    rewrite Hdel.
    destruct (install_with_virtualenv_run (after_pip w c)) as (Hr & Hc & _).
    assert (Ecalls : calls (after_pip w c) = calls w ++ [pip_command (sys_executable w) false true])
      by (unfold after_pip; now destruct (truthy (stdout c)), (truthy (stderr c))).
    assert (Efs : fs (after_pip w c) = fs w)
      by (unfold after_pip; now destruct (truthy (stdout c)), (truthy (stderr c))).
    assert (Eruns : runs (after_pip w c) = runs w)
      by (unfold after_pip; now destruct (truthy (stdout c)), (truthy (stderr c))).
    assert (Eexe : sys_executable (after_pip w c) = sys_executable w)
      by (unfold after_pip; now destruct (truthy (stdout c)), (truthy (stderr c))).
    assert (Eos : os_name (after_pip w c) = os_name w)
      by (unfold after_pip; now destruct (truthy (stdout c)), (truthy (stderr c))).
    rewrite ?Ecalls, ?Efs, ?Eruns, ?Eexe, ?Eos, ?length_snoc in Hr, Hc.
    rewrite Hr, Hc. clear Hr Hc Hdel.
    split; [reflexivity |].
    destruct (bool_decide (is_Some (fs w !! venv_dir))) eqn:Hp; cbn [orb].
    + split; [| split; [| split]].
      * eexists. split; [rewrite <- app_assoc; reflexivity |].
        unfold started_by.
        destruct (unstartable (runs w (S (length (calls w))))); reflexivity.
      * discriminate.
      * discriminate.
      * intros _.
        destruct (runs w (S (length (calls w)))) as [c3| |];
          cbn [failed unstartable]; split; intros Hf3; try discriminate Hf3;
          [apply negb_true_iff in Hf3; now rewrite Hf3 | reflexivity].
    + split; [| split; [| split]].
      * eexists. split; [rewrite <- app_assoc; reflexivity |].
        unfold started_by.
        destruct (runs w (S (length (calls w)))) as [c2| |];
          cbn [succeeded unstartable]; try reflexivity.
        destruct (returncode c2 =? 0)%Z; [| reflexivity].
        destruct (unstartable (runs w (S (S (length (calls w)))))); reflexivity.
      * intros _ Hf2.
        destruct (runs w (S (length (calls w)))) as [c2| |]; try discriminate Hf2.
        cbn [failed succeeded] in *. apply negb_true_iff in Hf2. now rewrite Hf2.
      * intros _ Hf2.
        destruct (runs w (S (length (calls w)))) as [c2| |]; try discriminate Hf2.
        reflexivity.
      * intros Hs. rewrite Hs.
        destruct (runs w (S (S (length (calls w))))) as [c3| |];
          cbn [failed unstartable]; split; intros Hf3; try discriminate Hf3;
          [apply negb_true_iff in Hf3; now rewrite Hf3 | reflexivity].
Qed.

(** ** Lines with an empty key *)

Lemma offer_present (k : string) (d : Dict.t) (l : string) :
  Dict.mem k d = true -> Dict.mem k (offer d l) = true.
Proof.
  unfold Dict.mem. destruct (Dict.lookup k d) as [v|] eqn:E; [| discriminate].
  intros _. now rewrite (offer_keep _ _ _ l E).
Qed.

Lemma fold_offer_present (k v l : string) (ls : list string) (d : Dict.t) :
  In l ls -> entry_of_line l = Some (k, v) ->
  Dict.mem k (fold_left offer ls d) = true.
Proof.
  intros Hin Hl. apply in_split in Hin as (pre & post & ->).
  rewrite fold_left_app. cbn [fold_left].
  generalize (fold_left offer pre d). intros d0.
  assert (H : Dict.mem k (offer d0 l) = true).
  { unfold offer, Dict.mem. rewrite Hl, lookup_setdefault.
    destruct (Dict.lookup k d0); [reflexivity |].
    now rewrite String.eqb_refl. }
  revert H. generalize (offer d0 l).
  induction post as [|x post IH]; intros d' H; [exact H |].
  cbn [fold_left]. apply IH. now apply offer_present.
Qed.

Lemma load_entry_present (content k v l : string) :
  In l (Py.splitlines content) -> entry_of_line l = Some (k, v) ->
  exists v', Dict.lookup k (_load_keys_file (Some content)) = Some v'.
Proof.
  intros Hin Hl. unfold _load_keys_file.
  pose proof (fold_offer_present k v l _ Dict.empty Hin Hl) as H.
  rewrite <- parse_lines_values in H. unfold Dict.mem in H.
  destruct (Dict.lookup k (fst (parse_lines content))) as [v'|] eqn:E;
    [| discriminate].
  exists v'. now apply fill_sequential_keep.
Qed.

Lemma entry_of_empty_key (l value : string) :
  is_effective (Py.strip l) = true ->
  _parse_key_line (Py.strip l) = Some (EmptyString, value) ->
  entry_of_line l = Some (EmptyString, clean value).
Proof. intros He Hp. unfold entry_of_line. now rewrite He, Hp. Qed.

(** C10, as the code has it.  The separator of a line is the one the
    parser splits at: the first [=], or the first [:] of a line without
    [=].  A line whose separator has nothing but white space before it
    (such as [=value]) parses to the empty key; the loop stores it as an
    extra key unless an earlier line already did, and the environment file
    then has a line that starts with [=]: no key name before it. *)
Theorem empty_key_line (content l a rest : string) (sep : ascii) :
  In l (Py.splitlines content) ->
  is_effective (Py.strip l) = true ->
  Py.strip l = a +:+ String sep rest ->
  Py.strip a = EmptyString ->
  Py.has_char sep a = false ->
  sep = "="%char \/ (sep = ":"%char /\ Py.has_char "=" (Py.strip l) = false) ->
  let final := _load_keys_file (Some content) in
  _parse_key_line (Py.strip l) = Some (EmptyString, Py.strip rest) /\
  exists v,
    Dict.lookup EmptyString final = Some v /\
    In (EmptyString, v) (extra_keys final) /\
    (exists before after,
       _format_env final =
       before +:+ Py.newline +:+ "=" +:+ v +:+ Py.newline +:+ after) /\
    (forall pre post,
       Py.splitlines content = pre ++ l :: post ->
       (forall l' v', In l' pre -> entry_of_line l' <> Some (EmptyString, v')) ->
       v = clean (Py.strip rest)).
Proof.
  intros Hin He Hl Ha Hsep Hcase. cbv zeta.
  assert (Hp : _parse_key_line (Py.strip l) = Some (EmptyString, Py.strip rest)).
  { destruct Hcase as [-> | [-> Hno]].
    - rewrite Hl, <- Ha. now apply parse_key_line_equals.
    - rewrite Hl in Hno |- *. rewrite <- Ha. now apply parse_key_line_colon. }
  split; [exact Hp |].
  pose proof (entry_of_empty_key _ _ He Hp) as Hentry.
  destruct (load_entry_present _ _ _ _ Hin Hentry) as [v Hv].
  exists v. split; [exact Hv |].
  assert (Hextra : In (EmptyString, v) (extra_keys (_load_keys_file (Some content)))).
  { unfold extra_keys. apply filter_In. split; [now apply lookup_In | reflexivity]. }
  split; [exact Hextra |]. split.
  - apply (format_env_extra_line _ _ _ Hextra).
  - intros pre post Hlines Hfirst.
    pose proof (load_first_entry _ _ _ _ _ _ Hlines Hentry Hfirst) as H.
    congruence.
Qed.

Lemma empty_key_line_witness :
  _parse_key_line "=value" = Some (EmptyString, "value") /\
  Dict.lookup EmptyString (_load_keys_file (Some "=value")) = Some "value" /\
  _format_env (_load_keys_file (Some "=value")) =
    unlines [env_header; "GEMINI_API_KEY="; "OPENAI_API_KEY="; "=value"].
Proof.
  destruct (empty_key_line "=value" "=value" EmptyString "value" "="%char)
    as (Hp & v & Hv & _ & _ & Hfirst);
    [now left | reflexivity | reflexivity | reflexivity | reflexivity | now left |].
  split; [exact Hp |]. split; [| reflexivity].
  rewrite Hv. f_equal. apply (Hfirst [] []); [reflexivity |].
  intros l' v' [].
Defined.

(** ** The layout of the file and the cleaning of values *)

(** C1, as the code has it.  The environment file is the header comment
    line, then GEMINI_API_KEY and OPENAI_API_KEY in that order as
    KEY=VALUE lines with the empty string when unset, then the extra keys,
    every line ended by a newline; the extra keys of a parsed file come in
    first-encountered order; without Keys.txt and with two empty answers
    the file written is the header and the two keys with empty values. *)
Theorem format_env_layout :
  (forall values,
     _format_env values =
     unlines
       (env_header
        :: env_line GEMINI_API_KEY (Dict.get values GEMINI_API_KEY EmptyString)
        :: env_line OPENAI_API_KEY (Dict.get values OPENAI_API_KEY EmptyString)
        :: map (fun kv => env_line (fst kv) (snd kv)) (extra_keys values))) /\
  (forall content,
     Dict.keys (extra_keys (_load_keys_file (Some content))) =
     first_seen (extra_labels (Py.splitlines content))) /\
  (forall w a b rest,
     fs w !! "Keys.txt" = None ->
     fs w !! ".env" <> Some Dir ->
     stdin w = Line a :: Line b :: rest ->
     Py.strip a = EmptyString -> Py.strip b = EmptyString ->
     fst (create_env_from_keys w) = Returns tt /\
     fs (snd (create_env_from_keys w)) =
       <[".env" := File empty_env_content]> (fs w)).
Proof.
  split; [exact format_env_unlines |]. split; [exact load_extra_keys |].
  intros w a b rest Hk He Hin Sa Sb.
  split; [apply create_env_from_keys_returns |].
  destruct (fs w !! ".env") as [[old|]|] eqn:Hold; [| now destruct He |];
    unfold_run; step_run; rewrite Sa, Sb; reflexivity.
Qed.

Lemma format_env_layout_witness :
  _format_env [(GEMINI_API_KEY, "g"); ("FOO", "1"); (OPENAI_API_KEY, "o")] =
    unlines [env_header; "GEMINI_API_KEY=g"; "OPENAI_API_KEY=o"; "FOO=1"] /\
  Dict.keys (extra_keys (_load_keys_file (Some extras_sample))) = ["B"; "A"] /\
  fs (snd (create_env_from_keys fresh_world)) !! ".env" =
    Some (File empty_env_content).
Proof.
  destruct format_env_layout as (Hlayout & Hextras & Hfresh).
  split; [| split].
  - rewrite Hlayout. reflexivity.
  - rewrite Hextras. reflexivity.
  - destruct (Hfresh fresh_world EmptyString EmptyString []
                eq_refl ltac:(discriminate) eq_refl eq_refl eq_refl)
      as [_ Hfs].
    rewrite Hfs. reflexivity.
Defined.

(** C1 as stated fails: the file written for empty answers is not the two
    key lines alone, its first line is the header comment. *)
Lemma env_file_starts_with_header :
  fs (snd (create_env_from_keys fresh_world)) !! ".env" =
    Some (File empty_env_content) /\
  empty_env_content <>
    spec_env_content [(GEMINI_API_KEY, EmptyString); (OPENAI_API_KEY, EmptyString)] /\
  _format_env [(GEMINI_API_KEY, EmptyString); (OPENAI_API_KEY, EmptyString)] <>
    spec_env_content [(GEMINI_API_KEY, EmptyString); (OPENAI_API_KEY, EmptyString)].
Proof.
  split; [reflexivity |]. split; discriminate.
Qed.

(** C2, as the code has it.  Comment trimming cuts at the first [#],
    whatever precedes it, and trims the white space around what is left;
    a value without [#] is only trimmed.  Quote stripping then trims and
    removes one matching pair of surrounding double or single quotes, and
    leaves any other text as trimmed.  A labeled line whose comment-trimmed
    value is a quoted text stores the text between the quotes. *)
Theorem comment_then_quotes (value : string) :
  (forall a b, value = a +:+ "#" +:+ b -> Py.has_char "#" a = false ->
     _remove_inline_comment value = Py.strip a) /\
  (Py.has_char "#" value = false ->
     _remove_inline_comment value = Py.strip value) /\
  (forall q body, is_quote q = true ->
     Py.strip value = String q (body +:+ String q EmptyString) ->
     _strip_quotes value = body) /\
  ((forall q body, is_quote q = true ->
      Py.strip value <> String q (body +:+ String q EmptyString)) ->
   _strip_quotes value = Py.strip value) /\
  (forall q body key values sequential raw_line,
     is_effective (Py.strip raw_line) = true ->
     _parse_key_line (Py.strip raw_line) = Some (key, value) ->
     is_quote q = true ->
     _remove_inline_comment value = String q (body +:+ String q EmptyString) ->
     process_line (values, sequential) raw_line =
     (Dict.setdefault (stored_key key) body values, sequential)).
Proof.
  repeat split.
  - intros a b -> Ha. now apply remove_inline_comment_hash.
  - apply remove_inline_comment_plain.
  - intros q body. apply strip_quotes_quoted.
  - apply strip_quotes_plain.
  - intros q body key values sequential raw_line He Hp Hq Hc.
    rewrite (process_line_labeled _ _ _ _ _ He Hp), Hc.
    now rewrite (strip_quotes_quoted _ q body Hq (strip_quoted q body Hq)).
Qed.

Lemma comment_then_quotes_witness :
  _remove_inline_comment quoted_value = String dquote ("abc" +:+ String dquote EmptyString) /\
  _strip_quotes (_remove_inline_comment quoted_value) = "abc" /\
  _strip_quotes "plain" = "plain" /\
  process_line ([], []) quoted_line = ([(GEMINI_API_KEY, "abc")], []).
Proof.
  destruct (comment_then_quotes quoted_value) as (Hhash & _ & _ & _ & Hline).
  destruct (comment_then_quotes "plain") as (_ & Hplain & _ & Hkeep & _).
  destruct (comment_then_quotes (String dquote ("abc" +:+ String dquote EmptyString)))
    as (_ & _ & Hquoted & _ & _).
  split; [| split; [| split]].
  - rewrite (Hhash (String dquote ("abc" +:+ String dquote " ")) " note"
               eq_refl eq_refl).
    reflexivity.
  - rewrite (Hhash (String dquote ("abc" +:+ String dquote " ")) " note"
               eq_refl eq_refl).
    apply (Hquoted dquote "abc"); reflexivity.
  - rewrite Hkeep; [reflexivity |].
    intros q body Hq E. change (Py.strip "plain") with "plain" in E.
    injection E as <- _. discriminate Hq.
  - apply (Hline dquote "abc" "Gemini_Api_Key"); reflexivity.
Defined.

(** C2 as stated fails: a backslash before [#] does not protect it.  The
    text [a\#b] has no unescaped [#], yet everything from the [#] on is
    discarded. *)
Lemma escaped_hash_starts_comment :
  has_unescaped_hash "a\#b" = false /\
  _remove_inline_comment "a\#b" = "a\" /\
  _remove_inline_comment "a\#b" <> Py.strip "a\#b".
Proof. split; [reflexivity |]. split; [reflexivity | discriminate]. Qed.

(** C3 as stated fails: a labeled key was recognized, and the fallback
    list still fills the slot that no labeled line set. *)
Lemma fallback_fills_slot_beside_named_key :
  parse_lines openai_then_bare = ([(OPENAI_API_KEY, "abc")], ["xyz"]) /\
  _load_keys_file (Some openai_then_bare) =
    [(OPENAI_API_KEY, "abc"); (GEMINI_API_KEY, "xyz")] /\
  _load_keys_file (Some openai_then_bare) <> fst (parse_lines openai_then_bare).
Proof. split; [reflexivity |]. split; [reflexivity | discriminate]. Qed.

(** C7 as stated fails: pip refuses the system-managed interpreter, .venv
    exists and is not created again, and the install inside .venv fails
    because its interpreter cannot be started.  The step has failed, and
    the installer returns no None: the OSError leaves it. *)
Lemma stale_venv_escapes_the_installer :
  failed (runs stale_venv_world 0) = true /\
  bool_decide (is_Some (fs stale_venv_world !! venv_dir)) = true /\
  unstartable (runs stale_venv_world 1) = true /\
  calls (snd (install_dependencies stale_venv_world)) =
    [pip_command "/usr/bin/python3" false true] /\
  fst (install_dependencies stale_venv_world) = Raises OSError /\
  fst (install_dependencies stale_venv_world) <> Returns None.
Proof.
  split; [reflexivity |]. split; [reflexivity |]. split; [reflexivity |].
  split; [reflexivity |]. split; [reflexivity | discriminate].
Qed.

(** C10 as stated fails: the first separator character of the line is at
    position 0, and the parser splits at the equals sign behind it.  The
    key is the colon, no empty key is stored, and the line of the .env
    file begins with the colon. *)
Lemma colon_before_equals_is_a_key :
  first_separator_position colon_equals_line = Some O /\
  _parse_key_line colon_equals_line = Some (":", "value") /\
  _load_keys_file (Some colon_equals_line) = [(":", "value")] /\
  Dict.lookup EmptyString (_load_keys_file (Some colon_equals_line)) = None /\
  _format_env (_load_keys_file (Some colon_equals_line)) =
    unlines [env_header; "GEMINI_API_KEY="; "OPENAI_API_KEY="; ":=value"].
Proof.
  split; [reflexivity |]. split; [reflexivity |]. split; [reflexivity |].
  split; reflexivity.
Qed.

(** ** Instances *)

Lemma parse_key_line_separators_witness :
  _parse_key_line "KEY = value" = Some ("KEY", "value") /\
  _parse_key_line "name: a=b" = Some ("name: a", "b") /\
  _parse_key_line "KEY: value" = Some ("KEY", "value") /\
  process_line ([], []) "  bare-value  " = ([], ["bare-value"]) /\
  snd (process_line ([], ["x"]) " KEY = value ") = ["x"].
Proof.
  destruct (parse_key_line_separators "KEY = value") as (Heq & _ & _ & Hseq).
  destruct (parse_key_line_separators "name: a=b") as (Hpref & _ & _ & _).
  destruct (parse_key_line_separators "KEY: value") as (_ & Hcolon & _ & _).
  destruct (parse_key_line_separators "bare-value") as (_ & _ & Hnone & _).
  split; [| split; [| split; [| split]]].
  - apply (Heq "KEY " " value"); reflexivity.
  - apply (Hpref "name: a" "b"); reflexivity.
  - apply (Hcolon "KEY" " value"); reflexivity.
  - apply (proj2 (Hnone eq_refl eq_refl)); reflexivity.
  - apply (Hseq "KEY" "value"); reflexivity.
Defined.


Lemma fallback_respects_labeled_slots_witness :
  snd (parse_lines both_labeled_and_bare) = ["bare"] /\
  _load_keys_file (Some both_labeled_and_bare) =
    [(GEMINI_API_KEY, "g"); (OPENAI_API_KEY, "o")] /\
  Dict.lookup OPENAI_API_KEY (_load_keys_file (Some openai_then_bare)) = Some "abc" /\
  Dict.lookup "FOO" (_load_keys_file (Some openai_then_bare)) = None /\
  _load_keys_file (Some "FOO=1") = [("FOO", "1")].
Proof.
  pose proof (fallback_respects_labeled_slots both_labeled_and_bare) as H1.
  pose proof (fallback_respects_labeled_slots openai_then_bare) as H2.
  pose proof (fallback_respects_labeled_slots "FOO=1") as H3.
  cbv zeta in H1, H2, H3.
  destruct H1 as (_ & _ & Hboth & _), H2 as (Hkeep & Hother & _ & _),
    H3 as (_ & _ & _ & Hempty).
  split; [reflexivity |]. split; [| split; [| split]].
  - rewrite (Hboth eq_refl eq_refl). reflexivity.
  - apply Hkeep. reflexivity.
  - rewrite Hother; [reflexivity | discriminate | discriminate].
  - rewrite (Hempty eq_refl). reflexivity.
Defined.

Lemma positional_fallback_witness :
  Dict.lookup GEMINI_API_KEY (_load_keys_file (Some openai_then_bare)) = Some "xyz" /\
  Dict.lookup OPENAI_API_KEY (_load_keys_file (Some "only")) = None /\
  _load_keys_file (Some two_bare_lines) =
    [(GEMINI_API_KEY, "abc"); (OPENAI_API_KEY, "x y")].
Proof.
  pose proof (positional_fallback openai_then_bare) as H1.
  pose proof (positional_fallback "only") as H2.
  pose proof (positional_fallback two_bare_lines) as H3.
  cbv zeta in H1, H2, H3.
  destruct H1 as (Hprimary & _ & _), H2 as (_ & Hsecondary & _),
    H3 as (_ & _ & Htwo).
  split; [| split].
  - rewrite Hprimary. reflexivity.
  - rewrite Hsecondary. reflexivity.
  - apply (Htwo "abc" " 'x y' "); try reflexivity; vm_compute; discriminate.
Defined.

Lemma install_dependencies_outcome_witness :
  fst (install_dependencies pip_ok_world) = Returns (Some "/usr/bin/python3") /\
  (exists new,
     calls (snd (install_dependencies managed_world)) =
       pip_command "/usr/bin/python3" false true :: new /\
     length (List.filter is_venv_creation new) = 1%nat) /\
  fst (install_dependencies stale_venv_world) = Raises OSError.
Proof.
  assert (Hexe : "/usr/bin/python3" <> venv_python_of "posix") by discriminate.
  pose proof (install_dependencies_outcome pip_ok_world Hexe) as H1.
  pose proof (install_dependencies_outcome managed_world Hexe) as H2.
  pose proof (install_dependencies_outcome stale_venv_world Hexe) as H3.
  cbv zeta in H1, H2, H3.
  destruct H1 as (Hok & _), H2 as (_ & _ & Hfail), H3 as (_ & _ & Hstale).
  split; [| split].
  - apply Hok. reflexivity.
  - destruct (Hfail _ eq_refl eq_refl) as (_ & (new & Hcalls & Hcount) & _).
    exists new. split; [exact Hcalls | exact Hcount].
  - destruct (Hstale _ eq_refl eq_refl) as (_ & _ & _ & _ & Hinstall).
    apply (Hinstall eq_refl). reflexivity.
Defined.

Lemma interrupt_aborts_env_creation_witness :
  fst (create_env_from_keys interrupting_world) = Returns tt /\
  fs (snd (create_env_from_keys interrupting_world)) !! ".env" = None.
Proof.
  destruct (interrupt_aborts_env_creation interrupting_world None None []
              eq_refl eq_refl eq_refl)
    as (w' & Hrun & Hfs & _).
  rewrite Hrun. cbn [fst snd]. rewrite Hfs. split; reflexivity.
Defined.

(** * Further properties of the script *)

(** ** Lines that do not count *)

Lemma load_keys_file_lines (content : string) :
  _load_keys_file (Some content) = load_lines (Py.splitlines content).
Proof. reflexivity. Qed.

Lemma fold_process_kept (ls : list string) (st : parse_state) :
  fold_left process_line (List.filter kept ls) st = fold_left process_line ls st.
Proof.
  revert st. induction ls as [|l ls IH]; intros st; [reflexivity |].
  cbn [List.filter fold_left]. destruct (kept l) eqn:E.
  - cbn [fold_left]. apply IH.
  - unfold kept in E. rewrite (process_line_skipped _ _ E). apply IH.
Qed.

(** X1.  Blank lines and comment lines have no influence: the mapping of
    a key file is the mapping of its other lines alone. *)
Theorem skipped_lines_do_not_count (content : string) :
  _load_keys_file (Some content) =
  load_lines (List.filter kept (Py.splitlines content)).
Proof.
  rewrite load_keys_file_lines. unfold load_lines.
  now rewrite fold_process_kept.
Qed.

(** ** The mapping is a dictionary *)

Lemma mem_false_not_in (k : string) (d : Dict.t) :
  Dict.mem k d = false -> ~ In k (Dict.keys d).
Proof.
  unfold Dict.mem. induction d as [|[k0 v0] d IH]; simpl; [tauto |].
  destruct (String.eqb k k0) eqn:E; [discriminate |].
  intros H [Heq | Hin]; [| now apply IH].
  subst k0. now rewrite String.eqb_refl in E.
Qed.

Lemma setdefault_NoDup (k v : string) (d : Dict.t) :
  List.NoDup (Dict.keys d) -> List.NoDup (Dict.keys (Dict.setdefault k v d)).
Proof.
  intros Hd. unfold Dict.setdefault. destruct (Dict.mem k d) eqn:E; [exact Hd |].
  unfold Dict.keys. rewrite map_app. simpl.
  apply NoDup_ListNoDup, NoDup_app. repeat split.
  - now apply NoDup_ListNoDup.
  - intros x Hx Hk. apply list_elem_of_In in Hx.
    apply list_elem_of_In in Hk. destruct Hk as [<- | []].
    now apply (mem_false_not_in _ _ E).
  - apply NoDup_singleton.
Qed.

(** A property of every key that the loop or the fallback stores is a
    property of every key of the mapping. *)
Lemma setdefault_keys (P : string -> Prop) (k v : string) (d : Dict.t) :
  P k -> Forall P (Dict.keys d) -> Forall P (Dict.keys (Dict.setdefault k v d)).
Proof.
  intros Hk Hd. unfold Dict.setdefault. destruct (Dict.mem k d); [exact Hd |].
  unfold Dict.keys. rewrite map_app. apply Forall_app. split; [exact Hd |].
  simpl. now constructor.
Qed.

Lemma setdefault_values (P : string -> Prop) (k v : string) (d : Dict.t) :
  P v -> Forall P (map snd d) -> Forall P (map snd (Dict.setdefault k v d)).
Proof.
  intros Hv Hd. unfold Dict.setdefault. destruct (Dict.mem k d); [exact Hd |].
  rewrite map_app. apply Forall_app. split; [exact Hd |].
  simpl. now constructor.
Qed.

Lemma fold_offer_invariant (I : Dict.t -> Prop) (ls : list string) (d : Dict.t) :
  (forall d k v l, I d -> entry_of_line l = Some (k, v) -> I (Dict.setdefault k v d)) ->
  I d -> I (fold_left offer ls d).
Proof.
  intros Hstep. revert d. induction ls as [|l ls IH]; intros d Hd; [exact Hd |].
  cbn [fold_left]. apply IH. unfold offer.
  destruct (entry_of_line l) as [[k v]|] eqn:E; [| exact Hd].
  now apply (Hstep d k v l).
Qed.

Lemma load_keys_NoDup (file : option string) :
  List.NoDup (Dict.keys (_load_keys_file file)).
Proof.
  destruct file as [content|]; [| constructor].
  unfold _load_keys_file.
  assert (H : List.NoDup (Dict.keys (fst (parse_lines content)))).
  { rewrite parse_lines_values. apply fold_offer_invariant; [| constructor].
    intros d k v l Hd _. now apply setdefault_NoDup. }
  destruct (parse_lines content) as [values sequential]. simpl in *.
  destruct sequential as [|s0 [|s1 tl]]; [exact H | |].
  - destruct (truthy s0); [now apply setdefault_NoDup | exact H].
  - destruct (truthy s0), (truthy s1);
      repeat apply setdefault_NoDup; exact H.
Qed.

Lemma NoDup_lookup (k v : string) (d : Dict.t) :
  List.NoDup (Dict.keys d) -> In (k, v) d -> Dict.lookup k d = Some v.
Proof.
  induction d as [|[k0 v0] d IH]; simpl; [tauto |].
  intros Hnd [Heq | Hin].
  - injection Heq as -> ->. now rewrite String.eqb_refl.
  - inversion Hnd as [|? ? Hnot Hrest]; subst.
    destruct (String.eqb k k0) eqn:E; [| now apply IH].
    apply String.eqb_eq in E. subst k0. exfalso. apply Hnot.
    apply (in_map fst) in Hin. exact Hin.
Qed.

(** X2.  The mapping returned by [_load_keys_file] has every key once,
    so an entry of the mapping is what a lookup of its key gives. *)
Theorem load_keys_is_dictionary (file : option string) :
  List.NoDup (Dict.keys (_load_keys_file file)) /\
  forall k v,
    In (k, v) (_load_keys_file file) <->
    Dict.lookup k (_load_keys_file file) = Some v.
Proof.
  split; [apply load_keys_NoDup |].
  intros k v. split; [apply NoDup_lookup, load_keys_NoDup | apply lookup_In].
Qed.

(** ** Characters that never reach the mapping *)

Section CharTest.

Variable p : ascii -> bool.

Lemma all_chars_app (a b : string) :
  all_chars p (a +:+ b) = all_chars p a && all_chars p b.
Proof.
  induction a as [|x a IH]; simpl; [reflexivity |].
  now rewrite IH, andb_assoc.
Qed.

Lemma all_chars_lstrip (s : string) :
  all_chars p s = true -> all_chars p (Py.lstrip s) = true.
Proof.
  induction s as [|x s IH]; simpl; [reflexivity |].
  intros H. destruct (Py.isspace x); [| exact H].
  apply andb_true_iff in H as [_ H]. now apply IH.
Qed.

Lemma all_chars_rstrip (s : string) :
  all_chars p s = true -> all_chars p (Py.rstrip s) = true.
Proof.
  induction s as [|x s IH]; simpl; [reflexivity |].
  intros H. apply andb_true_iff in H as [Hx H]. specialize (IH H).
  destruct (Py.rstrip s) as [|y r].
  - destruct (Py.isspace x); simpl; [reflexivity | now rewrite Hx].
  - simpl in *. now rewrite Hx, IH.
Qed.

Lemma all_chars_strip (s : string) :
  all_chars p s = true -> all_chars p (Py.strip s) = true.
Proof. intros H. now apply all_chars_lstrip, all_chars_rstrip. Qed.

Lemma all_chars_drop_last (s : string) :
  all_chars p s = true -> all_chars p (Py.drop_last s) = true.
Proof.
  induction s as [|x s IH]; [reflexivity |].
  cbn [all_chars]. intros H. apply andb_true_iff in H as [Hx H].
  destruct s as [|y r]; [reflexivity |].
  change (Py.drop_last (String x (String y r)))
    with (String x (Py.drop_last (String y r))).
  cbn [all_chars]. rewrite Hx. exact (IH H).
Qed.

Lemma all_chars_strip_quotes (s : string) :
  all_chars p s = true -> all_chars p (_strip_quotes s) = true.
Proof.
  intros H. apply all_chars_strip in H. unfold _strip_quotes.
  destruct (Py.strip s) as [|first rest]; [reflexivity |].
  destruct (Py.last_char rest); [| exact H].
  destruct (Ascii.eqb first a && is_quote first); [| exact H].
  simpl in H. apply andb_true_iff in H as [_ H]. now apply all_chars_drop_last.
Qed.

Lemma all_chars_split1 (sep : ascii) (s : string) :
  all_chars p s = true ->
  all_chars p (fst (Py.split1 sep s)) = true /\
  all_chars p (default EmptyString (snd (Py.split1 sep s))) = true.
Proof.
  induction s as [|x s IH]; simpl; [now split |].
  intros H. apply andb_true_iff in H as [Hx H].
  destruct (Ascii.eqb sep x); [now split |].
  destruct (IH H) as [Hl Hr]. destruct (Py.split1 sep s) as [l t].
  simpl in *. now rewrite Hx, Hl.
Qed.

Lemma all_chars_remove_inline_comment (s : string) :
  all_chars p s = true -> all_chars p (_remove_inline_comment s) = true.
Proof.
  intros H. unfold _remove_inline_comment.
  now apply all_chars_strip, (all_chars_split1 "#" s).
Qed.

Lemma all_chars_clean (s : string) :
  all_chars p s = true -> all_chars p (clean s) = true.
Proof.
  intros H. unfold clean.
  now apply all_chars_strip_quotes, all_chars_remove_inline_comment.
Qed.

Lemma all_chars_parse_key_line (line key value : string) :
  all_chars p line = true ->
  _parse_key_line line = Some (key, value) ->
  all_chars p key = true /\ all_chars p value = true.
Proof.
  intros H. unfold _parse_key_line, parse_with.
  destruct (Py.has_char "=" line).
  - pose proof (all_chars_split1 "=" line H) as [Hl Hr].
    destruct (Py.split1 "=" line) as [l r]. intros [= <- <-].
    split; now apply all_chars_strip.
  - destruct (Py.has_char ":" line); [| discriminate].
    pose proof (all_chars_split1 ":" line H) as [Hl Hr].
    destruct (Py.split1 ":" line) as [l r]. intros [= <- <-].
    split; now apply all_chars_strip.
Qed.

End CharTest.

Lemma has_char_all_chars (c : ascii) (s : string) :
  Py.has_char c s = negb (all_chars (other_than c) s).
Proof.
  induction s as [|x s IH]; [reflexivity |].
  cbn [Py.has_char all_chars]. rewrite IH. unfold other_than.
  now destruct (Ascii.eqb c x), (all_chars (fun a => negb (Ascii.eqb c a)) s).
Qed.

Lemma has_char_false_iff (c : ascii) (s : string) :
  Py.has_char c s = false <-> all_chars (other_than c) s = true.
Proof.
  rewrite has_char_all_chars. now destruct (all_chars (other_than c) s).
Qed.

Lemma no_linebreak_all_chars (s : string) :
  no_linebreak s = all_chars inside_line s.
Proof. induction s as [|x s IH]; [reflexivity |]. simpl. now rewrite IH. Qed.

Lemma all_chars_upper (p : ascii -> bool) (s : string) :
  (forall c, p (Py.upper_char c) = p c) ->
  all_chars p (Py.upper s) = all_chars p s.
Proof.
  intros Hp. induction s as [|x s IH]; [reflexivity |].
  simpl. now rewrite Hp, IH.
Qed.

Lemma upper_char_idempotent (c : ascii) :
  Py.upper_char (Py.upper_char c) = Py.upper_char c.
Proof. destruct c as [[] [] [] [] [] [] [] []]; reflexivity. Qed.

Lemma upper_char_not_equals (c : ascii) :
  other_than "=" (Py.upper_char c) = other_than "=" c.
Proof. destruct c as [[] [] [] [] [] [] [] []]; reflexivity. Qed.

Lemma upper_char_inside_line (c : ascii) :
  inside_line (Py.upper_char c) = inside_line c.
Proof. destruct c as [[] [] [] [] [] [] [] []]; reflexivity. Qed.

Lemma upper_char_of_lower (c : ascii) :
  Py.upper_char (Py.lower_char c) = Py.upper_char c.
Proof. destruct c as [[] [] [] [] [] [] [] []]; reflexivity. Qed.

Lemma upper_idempotent (s : string) : Py.upper (Py.upper s) = Py.upper s.
Proof.
  induction s as [|x s IH]; [reflexivity |].
  simpl. now rewrite upper_char_idempotent, IH.
Qed.

Lemma upper_of_lower (s : string) : Py.upper (Py.lower s) = Py.upper s.
Proof.
  induction s as [|x s IH]; [reflexivity |].
  simpl. now rewrite upper_char_of_lower, IH.
Qed.

Lemma split1_left_free (sep : ascii) (s : string) :
  all_chars (other_than sep) (fst (Py.split1 sep s)) = true.
Proof.
  induction s as [|x s IH]; [reflexivity |].
  simpl. destruct (Ascii.eqb sep x) eqn:E; [reflexivity |].
  destruct (Py.split1 sep s) as [l t]. simpl in *.
  unfold other_than at 1. now rewrite E, IH.
Qed.

(** The key of a labeled line holds no [=]. *)
Lemma parse_key_line_key_free (line key value : string) :
  _parse_key_line line = Some (key, value) ->
  all_chars (other_than "=") key = true.
Proof.
  unfold _parse_key_line, parse_with.
  destruct (Py.has_char "=" line) eqn:H1.
  - pose proof (split1_left_free "=" line) as Hl.
    destruct (Py.split1 "=" line) as [l r]. intros [= <- _].
    now apply all_chars_strip.
  - destruct (Py.has_char ":" line); [| discriminate].
    apply has_char_false_iff in H1.
    pose proof (all_chars_split1 _ ":" line H1) as [Hl _].
    destruct (Py.split1 ":" line) as [l r]. intros [= <- _].
    now apply all_chars_strip.
Qed.

Lemma remove_inline_comment_free (s : string) :
  all_chars (other_than "#") (_remove_inline_comment s) = true.
Proof.
  unfold _remove_inline_comment. apply all_chars_strip, split1_left_free.
Qed.

Lemma clean_free (s : string) : all_chars (other_than "#") (clean s) = true.
Proof.
  unfold clean. apply all_chars_strip_quotes, remove_inline_comment_free.
Qed.

(** ** What every key and every value of the mapping satisfies *)

Lemma entry_of_line_parse (l k v : string) :
  entry_of_line l = Some (k, v) ->
  exists key value,
    _parse_key_line (Py.strip l) = Some (key, value) /\
    k = stored_key key /\ v = clean value.
Proof.
  unfold entry_of_line. destruct (is_effective (Py.strip l)); [| discriminate].
  destruct (_parse_key_line (Py.strip l)) as [[key value]|]; [| discriminate].
  intros [= <- <-]. now exists key, value.
Qed.

Lemma process_line_cases (st : parse_state) (l : string) :
  match entry_of_line l with
  | Some (k, v) => process_line st l = (Dict.setdefault k v (fst st), snd st)
  | None =>
      process_line st l = st \/
      process_line st l = (fst st, snd st ++ [clean (Py.strip l)])
  end.
Proof.
  destruct st as [values sequential]. unfold entry_of_line.
  destruct (is_effective (Py.strip l)) eqn:He.
  - destruct (_parse_key_line (Py.strip l)) as [[key value]|] eqn:Hp.
    + now rewrite (process_line_labeled _ _ _ _ _ He Hp).
    + right. now rewrite (process_line_unlabeled _ _ _ He Hp).
  - left. now apply process_line_skipped.
Qed.

Section Invariant.

Variables Pk Pv : string -> Prop.

Lemma fold_process_invariant (lines : list string) (st : parse_state) :
  (forall l k v, In l lines -> entry_of_line l = Some (k, v) -> Pk k /\ Pv v) ->
  (forall l, In l lines -> Pv (clean (Py.strip l))) ->
  state_satisfies Pk Pv st ->
  state_satisfies Pk Pv (fold_left process_line lines st).
Proof.
  revert st. induction lines as [|l lines IH]; intros st Hentry Hbare Hst;
    [exact Hst |].
  cbn [fold_left]. apply IH.
  - intros l' k v Hin. apply Hentry. now right.
  - intros l' Hin. apply Hbare. now right.
  - pose proof (process_line_cases st l) as Hc.
    destruct (entry_of_line l) as [[k v]|] eqn:E.
    + rewrite Hc. destruct (Hentry l k v (or_introl eq_refl) E) as [Hk Hv].
      destruct Hst as (H1 & H2 & H3). repeat split; cbn [fst snd].
      * now apply setdefault_keys.
      * now apply setdefault_values.
      * exact H3.
    + destruct Hc as [-> | ->]; [exact Hst |].
      destruct Hst as (H1 & H2 & H3). repeat split; cbn [fst snd]; try assumption.
      apply Forall_app. split; [exact H3 |]. constructor; [| constructor].
      apply Hbare. now left.
Qed.

Lemma fill_sequential_invariant (st : parse_state) :
  Pk GEMINI_API_KEY -> Pk OPENAI_API_KEY -> state_satisfies Pk Pv st ->
  Forall Pk (Dict.keys (fill_sequential st)) /\
  Forall Pv (map snd (fill_sequential st)).
Proof.
  intros HG HO (H1 & H2 & H3). destruct st as [values sequential].
  cbn [fst snd] in *. unfold fill_sequential.
  destruct sequential as [|s0 [|s1 tl]]; [now split | |].
  - apply Forall_cons in H3 as [P0 _].
    destruct (truthy s0); [| now split].
    split; [now apply setdefault_keys | now apply setdefault_values].
  - apply Forall_cons in H3 as [P0 H3]. apply Forall_cons in H3 as [P1 _].
    destruct (truthy s0), (truthy s1); split;
      repeat first [apply setdefault_keys | apply setdefault_values];
      assumption.
Qed.

Lemma load_lines_invariant (lines : list string) :
  Pk GEMINI_API_KEY -> Pk OPENAI_API_KEY ->
  (forall l k v, In l lines -> entry_of_line l = Some (k, v) -> Pk k /\ Pv v) ->
  (forall l, In l lines -> Pv (clean (Py.strip l))) ->
  Forall Pk (Dict.keys (load_lines lines)) /\
  Forall Pv (map snd (load_lines lines)).
Proof.
  intros HG HO Hentry Hbare. unfold load_lines.
  apply fill_sequential_invariant; [exact HG | exact HO |].
  apply fold_process_invariant; [exact Hentry | exact Hbare |].
  repeat split; constructor.
Qed.

End Invariant.

Lemma stored_key_cases (P : string -> Prop) (key : string) :
  P GEMINI_API_KEY -> P OPENAI_API_KEY -> P (Py.upper key) -> P (stored_key key).
Proof.
  intros HG HO HU. unfold stored_key.
  destruct (Py.contains "GEMINI" (Py.upper key) && Py.contains "API_KEY" (Py.upper key));
    [exact HG |].
  destruct (Py.contains "OPENAI" (Py.upper key) && Py.contains "API_KEY" (Py.upper key));
    [exact HO | exact HU].
Qed.

(** X3.  Every key of the mapping is in upper case and holds no [=]: in
    the environment file the first [=] of a line ends the key. *)
Theorem load_keys_normalized (file : option string) :
  Forall (fun k => Py.upper k = k /\ Py.has_char "=" k = false)
         (Dict.keys (_load_keys_file file)).
Proof.
  destruct file as [content|]; [| constructor].
  rewrite load_keys_file_lines.
  apply (load_lines_invariant _ (fun _ => True)).
  - split; reflexivity.
  - split; reflexivity.
  - intros l k v _ E. split; [| exact I].
    destruct (entry_of_line_parse _ _ _ E) as (key & value & Hp & -> & _).
    apply stored_key_cases; try (split; reflexivity).
    split; [apply upper_idempotent |].
    apply has_char_false_iff. rewrite all_chars_upper by apply upper_char_not_equals.
    exact (parse_key_line_key_free _ _ _ Hp).
  - intros; exact I.
Qed.

(** X4.  No value of the mapping holds a [#]: what follows a [#] never
    reaches the environment file. *)
Theorem load_values_without_hash (file : option string) :
  Forall (fun v => Py.has_char "#" v = false) (map snd (_load_keys_file file)).
Proof.
  destruct file as [content|]; [| constructor].
  rewrite load_keys_file_lines.
  apply (load_lines_invariant (fun _ => True)).
  - exact I.
  - exact I.
  - intros l k v _ E. split; [exact I |].
    destruct (entry_of_line_parse _ _ _ E) as (key & value & _ & _ & ->).
    apply has_char_false_iff, clean_free.
  - intros l _. apply has_char_false_iff, clean_free.
Qed.

(** ** One entry, one line *)

Lemma splitlines_from_break (cur : string) (a : ascii) (r : string) :
  Py.islinebreak a = true ->
  Py.splitlines_from cur (String a r) =
  cur :: Py.splitlines_from EmptyString (after_break a r).
Proof.
  intros Ha. cbn [Py.splitlines_from]. rewrite Ha. f_equal.
  destruct a as [[] [] [] [] [] [] [] []]; try discriminate Ha; try reflexivity.
  destruct r as [|[[] [] [] [] [] [] [] []] r']; reflexivity.
Qed.

Lemma splitlines_from_inside (cur : string) (a : ascii) (r : string) :
  Py.islinebreak a = false ->
  Py.splitlines_from cur (String a r) =
  Py.splitlines_from (cur +:+ String a EmptyString) r.
Proof. intros Ha. cbn [Py.splitlines_from]. now rewrite Ha. Qed.

Lemma after_break_length (a : ascii) (r : string) :
  (String.length (after_break a r) <= String.length r)%nat.
Proof.
  unfold after_break.
  destruct a as [[] [] [] [] [] [] [] []]; try lia.
  destruct r as [|[[] [] [] [] [] [] [] []] r']; simpl; lia.
Qed.

Lemma no_linebreak_snoc (cur : string) (a : ascii) :
  no_linebreak cur = true -> Py.islinebreak a = false ->
  no_linebreak (cur +:+ String a EmptyString) = true.
Proof.
  intros Hc Ha. rewrite no_linebreak_all_chars in *.
  rewrite all_chars_app, Hc. simpl. unfold inside_line. now rewrite Ha.
Qed.

Lemma splitlines_from_lines (n : nat) (s cur : string) :
  (String.length s <= n)%nat -> no_linebreak cur = true ->
  Forall (fun l => no_linebreak l = true) (Py.splitlines_from cur s).
Proof.
  revert s cur. induction n as [|n IH]; intros s cur Hn Hc.
  - destruct s; [| simpl in Hn; lia]. simpl.
    destruct cur; repeat constructor. exact Hc.
  - destruct s as [|a r].
    + simpl. destruct cur; repeat constructor. exact Hc.
    + simpl in Hn. destruct (Py.islinebreak a) eqn:Ha.
      * rewrite (splitlines_from_break _ _ _ Ha). constructor; [exact Hc |].
        apply IH; [| reflexivity].
        pose proof (after_break_length a r). lia.
      * rewrite (splitlines_from_inside _ _ _ Ha).
        apply IH; [lia |]. now apply no_linebreak_snoc.
Qed.

(** Every line of [str.splitlines] is free of line breaks. *)
Lemma splitlines_lines (content : string) :
  Forall (fun l => no_linebreak l = true) (Py.splitlines content).
Proof. now apply (splitlines_from_lines (String.length content)). Qed.

Lemma splitlines_from_line (l cur rest : string) :
  no_linebreak l = true ->
  Py.splitlines_from cur (l +:+ Py.newline +:+ rest) =
  (cur +:+ l) :: Py.splitlines_from EmptyString rest.
Proof.
  revert cur. induction l as [|a l IH]; intros cur Hl.
  - rewrite append_nil_r. change (EmptyString +:+ Py.newline +:+ rest)
      with (String "010"%char rest).
    rewrite splitlines_from_break by reflexivity. reflexivity.
  - simpl in Hl. apply andb_true_iff in Hl as [Ha Hl].
    apply negb_true_iff in Ha.
    change (String a l +:+ Py.newline +:+ rest)
      with (String a (l +:+ Py.newline +:+ rest)).
    rewrite (splitlines_from_inside _ _ _ Ha), (IH _ Hl).
    now rewrite append_assoc.
Qed.

(** Splitting what [unlines] joined gives the lines back. *)
Lemma splitlines_unlines (ls : list string) :
  Forall (fun l => no_linebreak l = true) ls ->
  Py.splitlines (unlines ls) = ls.
Proof.
  unfold Py.splitlines. induction ls as [|l ls IH]; intros H; [reflexivity |].
  apply Forall_cons in H as [Hl H]. cbn [unlines fold_right].
  rewrite (splitlines_from_line _ _ _ Hl). fold (unlines ls).
  now rewrite (IH H).
Qed.

Lemma format_env_lines (values : Dict.t) :
  _format_env values = unlines (env_lines values).
Proof. apply format_env_unlines. Qed.

Lemma no_linebreak_env_line (k v : string) :
  no_linebreak k = true -> no_linebreak v = true ->
  no_linebreak (env_line k v) = true.
Proof.
  intros Hk Hv. unfold env_line. rewrite no_linebreak_all_chars in *.
  rewrite !all_chars_app, Hk, Hv. reflexivity.
Qed.

Lemma values_In (P : string -> Prop) (k v : string) (d : Dict.t) :
  Forall P (map snd d) -> In (k, v) d -> P v.
Proof.
  intros H Hin. rewrite List.Forall_forall in H. apply H.
  apply (in_map snd) in Hin. exact Hin.
Qed.

Lemma keys_In (P : string -> Prop) (k v : string) (d : Dict.t) :
  Forall P (Dict.keys d) -> In (k, v) d -> P k.
Proof.
  intros H Hin. rewrite List.Forall_forall in H. apply H.
  apply (in_map fst) in Hin. exact Hin.
Qed.

Lemma no_linebreak_get (values : Dict.t) (k : string) :
  Forall (fun v => no_linebreak v = true) (map snd values) ->
  no_linebreak (Dict.get values k EmptyString) = true.
Proof.
  intros H. unfold Dict.get.
  destruct (Dict.lookup k values) as [v|] eqn:E; [| reflexivity].
  exact (values_In _ _ _ _ H (lookup_In _ _ _ E)).
Qed.

Lemma env_lines_inside (values : Dict.t) :
  Forall (fun k => no_linebreak k = true) (Dict.keys values) ->
  Forall (fun v => no_linebreak v = true) (map snd values) ->
  Forall (fun l => no_linebreak l = true) (env_lines values).
Proof.
  intros Hk Hv. unfold env_lines.
  constructor; [reflexivity |].
  constructor; [apply no_linebreak_env_line; [reflexivity | now apply no_linebreak_get] |].
  constructor; [apply no_linebreak_env_line; [reflexivity | now apply no_linebreak_get] |].
  apply List.Forall_forall. intros line Hin.
  apply in_map_iff in Hin as ([k v] & <- & Hin).
  unfold extra_keys in Hin. apply filter_In in Hin as [Hin _].
  apply no_linebreak_env_line; cbn [fst snd].
  - exact (keys_In _ _ _ _ Hk Hin).
  - exact (values_In _ _ _ _ Hv Hin).
Qed.

Lemma load_entries_inside (content : string) :
  Forall (fun k => no_linebreak k = true)
         (Dict.keys (_load_keys_file (Some content))) /\
  Forall (fun v => no_linebreak v = true)
         (map snd (_load_keys_file (Some content))).
Proof.
  rewrite load_keys_file_lines.
  pose proof (splitlines_lines content) as Hlines.
  rewrite List.Forall_forall in Hlines.
  apply load_lines_invariant.
  - reflexivity.
  - reflexivity.
  - intros l k v Hin E.
    destruct (entry_of_line_parse _ _ _ E) as (key & value & Hp & -> & ->).
    pose proof (Hlines l Hin) as Hl. rewrite no_linebreak_all_chars in Hl.
    apply all_chars_strip in Hl.
    destruct (all_chars_parse_key_line _ _ _ _ Hl Hp) as [Hkey Hvalue].
    split.
    + apply stored_key_cases; try reflexivity.
      rewrite no_linebreak_all_chars.
      now rewrite all_chars_upper by apply upper_char_inside_line.
    + rewrite no_linebreak_all_chars. now apply all_chars_clean.
  - intros l Hin. pose proof (Hlines l Hin) as Hl.
    rewrite no_linebreak_all_chars in *.
    now apply all_chars_clean, all_chars_strip.
Qed.

(** X5.  Read line by line, the environment file is the header, the two
    credential lines and one line per extra key, nothing else: this holds
    for every mapping whose keys and values are free of line breaks, and
    so for every mapping read from a key file. *)
Theorem env_file_lines :
  (forall values,
     Forall (fun k => no_linebreak k = true) (Dict.keys values) ->
     Forall (fun v => no_linebreak v = true) (map snd values) ->
     Py.splitlines (_format_env values) = env_lines values) /\
  (forall content,
     Py.splitlines (_format_env (_load_keys_file (Some content))) =
     env_lines (_load_keys_file (Some content))).
Proof.
  assert (H : forall values,
     Forall (fun k => no_linebreak k = true) (Dict.keys values) ->
     Forall (fun v => no_linebreak v = true) (map snd values) ->
     Py.splitlines (_format_env values) = env_lines values).
  { intros values Hk Hv. rewrite format_env_lines.
    apply splitlines_unlines. now apply env_lines_inside. }
  split; [exact H |].
  intros content. destruct (load_entries_inside content) as [Hk Hv].
  now apply H.
Qed.

Lemma env_file_lines_witness :
  Py.splitlines (_format_env [(GEMINI_API_KEY, "g"); ("FOO", "1")]) =
    [env_header; "GEMINI_API_KEY=g"; "OPENAI_API_KEY="; "FOO=1"] /\
  Py.splitlines (_format_env (_load_keys_file (Some extras_sample))) =
    [env_header; "GEMINI_API_KEY=k"; "OPENAI_API_KEY="; "B=1"; "A=2"].
Proof.
  destruct env_file_lines as [Hany Hfile]. split.
  - rewrite Hany; [reflexivity | |]; repeat constructor.
  - rewrite Hfile. reflexivity.
Defined.

(** ** White space around a line, case of a label *)

Lemma lstrip_idempotent (s : string) : Py.lstrip (Py.lstrip s) = Py.lstrip s.
Proof.
  induction s as [|c r IH]; [reflexivity |].
  simpl. destruct (Py.isspace c) eqn:E; [exact IH |].
  simpl. now rewrite E.
Qed.

Lemma rstrip_idempotent (s : string) : Py.rstrip (Py.rstrip s) = Py.rstrip s.
Proof.
  induction s as [|c r IH]; [reflexivity |].
  cbn [Py.rstrip]. destruct (Py.rstrip r) as [|y r'] eqn:E.
  - destruct (Py.isspace c) eqn:Hc; [reflexivity |].
    cbn [Py.rstrip]. now rewrite Hc.
  - cbn [Py.rstrip]. cbn [Py.rstrip] in IH. now rewrite IH.
Qed.

Lemma lstrip_rstrip (s : string) :
  Py.lstrip (Py.rstrip s) = Py.rstrip (Py.lstrip s).
Proof.
  induction s as [|c r IH]; [reflexivity |].
  cbn [Py.rstrip Py.lstrip]. destruct (Py.isspace c) eqn:Hc.
  - rewrite <- IH. destruct (Py.rstrip r) as [|y r']; [reflexivity |].
    cbn [Py.lstrip]. now rewrite Hc.
  - cbn [Py.rstrip]. destruct (Py.rstrip r) as [|y r'];
      rewrite ?Hc; cbn [Py.lstrip]; now rewrite Hc.
Qed.

Lemma strip_idempotent (s : string) : Py.strip (Py.strip s) = Py.strip s.
Proof.
  unfold Py.strip.
  now rewrite <- (lstrip_rstrip (Py.rstrip s)), rstrip_idempotent, lstrip_idempotent.
Qed.

Lemma process_line_strip (st : parse_state) (raw_line : string) :
  process_line st (Py.strip raw_line) = process_line st raw_line.
Proof. unfold process_line. now rewrite strip_idempotent. Qed.

Lemma fold_process_strip (ls : list string) (st : parse_state) :
  fold_left process_line (map Py.strip ls) st = fold_left process_line ls st.
Proof.
  revert st. induction ls as [|l ls IH]; intros st; [reflexivity |].
  cbn [map fold_left]. now rewrite process_line_strip, IH.
Qed.

(** X6.  White space at the start and at the end of a line plays no
    part: a key file gives the mapping of its trimmed lines. *)
Theorem surrounding_space_does_not_count (content : string) :
  _load_keys_file (Some content) =
  load_lines (map Py.strip (Py.splitlines content)).
Proof.
  rewrite load_keys_file_lines. unfold load_lines.
  now rewrite fold_process_strip.
Qed.

Lemma stored_key_ignores_case (key : string) :
  stored_key (Py.lower key) = stored_key key /\
  stored_key (Py.upper key) = stored_key key.
Proof.
  unfold stored_key. now rewrite upper_of_lower, upper_idempotent.
Qed.

(** X7.  The case of the letters of an ASCII label plays no part: two
    labeled lines with the same value, whose labels are ASCII text and
    differ only by lower-casing or upper-casing, do the same to the
    mapping.  The label is asked to be ASCII because only there
    [Py.lower] and [Py.upper] are Python's [str.lower] and [str.upper]. *)
Theorem label_case_does_not_count (st : parse_state)
    (raw_line raw_line' key key' value : string) :
  Py.isascii key = true ->
  is_effective (Py.strip raw_line) = true ->
  is_effective (Py.strip raw_line') = true ->
  _parse_key_line (Py.strip raw_line) = Some (key, value) ->
  _parse_key_line (Py.strip raw_line') = Some (key', value) ->
  key' = Py.lower key \/ key' = Py.upper key ->
  process_line st raw_line' = process_line st raw_line.
Proof.
  intros _ He He' Hp Hp' Hcase. destruct st as [values sequential].
  rewrite (process_line_labeled _ _ _ _ _ He Hp).
  rewrite (process_line_labeled _ _ _ _ _ He' Hp').
  destruct (stored_key_ignores_case key) as [Hl Hu].
  destruct Hcase as [-> | ->]; now rewrite ?Hl, ?Hu.
Qed.

Lemma label_case_does_not_count_witness :
  process_line ([], []) "gemini_api_key = k" =
  process_line ([], []) "GEMINI_API_KEY = k".
Proof.
  apply (label_case_does_not_count _ _ _ "GEMINI_API_KEY" "gemini_api_key" "k");
    try reflexivity.
  now left.
Defined.

(** ** When the user is asked for the keys *)

Lemma setdefault_not_empty (k v : string) (d : Dict.t) :
  Dict.setdefault k v d <> [].
Proof.
  unfold Dict.setdefault. destruct (Dict.mem k d) eqn:E.
  - intros ->. discriminate E.
  - destruct d; discriminate.
Qed.

Lemma fold_offer_empty (ls : list string) :
  fold_left offer ls [] = [] <-> forall l, In l ls -> entry_of_line l = None.
Proof.
  split.
  - intros H l Hin. destruct (entry_of_line l) as [[k v]|] eqn:E; [| reflexivity].
    pose proof (fold_offer_present k v l ls [] Hin E) as Hm.
    rewrite H in Hm. discriminate Hm.
  - induction ls as [|l ls IH]; intros H; [reflexivity |].
    cbn [fold_left]. unfold offer at 2. rewrite (H l (or_introl eq_refl)).
    apply IH. intros l' Hin. apply H. now right.
Qed.

Lemma truthy_false (s : string) : truthy s = false <-> s = EmptyString.
Proof.
  unfold truthy. rewrite negb_false_iff. apply String.eqb_eq.
Qed.

Lemma fill_sequential_empty (values : Dict.t) (sequential : list string) :
  fill_sequential (values, sequential) = [] <->
  values = [] /\
  forall s, sequential !! 0%nat = Some s \/ sequential !! 1%nat = Some s ->
            s = EmptyString.
Proof.
  unfold fill_sequential.
  destruct sequential as [|s0 [|s1 tl]]; cbn [lookup list_lookup].
  - split; [intros ->; split; [reflexivity | intros s [H | H]; discriminate H] | tauto].
  - destruct (truthy s0) eqn:T0.
    + split; [intros H; now apply setdefault_not_empty in H |].
      intros [_ H]. specialize (H s0 (or_introl eq_refl)).
      apply truthy_false in H. congruence.
    + apply truthy_false in T0. subst s0.
      split; [intros ->; split; [reflexivity |] | tauto].
      intros s [[= <-] | H]; [reflexivity | discriminate H].
  - destruct (truthy s1) eqn:T1.
    + split; [intros H; now apply setdefault_not_empty in H |].
      intros [_ H]. specialize (H s1 (or_intror eq_refl)).
      apply truthy_false in H. congruence.
    + apply truthy_false in T1. subst s1.
      destruct (truthy s0) eqn:T0.
      * split; [intros H; now apply setdefault_not_empty in H |].
        intros [_ H]. specialize (H s0 (or_introl eq_refl)).
        apply truthy_false in H. congruence.
      * apply truthy_false in T0. subst s0.
        split; [intros ->; split; [reflexivity |] | tauto].
        intros s [[= <-] | [= <-]]; reflexivity.
Qed.

(** X8.  The mapping of a key file is empty, and the user is then asked
    for the keys, exactly when no line of the file is labeled and the
    first two bare values, if any, are empty. *)
Theorem empty_mapping_condition (content : string) :
  _load_keys_file (Some content) = [] <->
  (forall l, In l (Py.splitlines content) -> entry_of_line l = None) /\
  (forall s, snd (parse_lines content) !! 0%nat = Some s \/
             snd (parse_lines content) !! 1%nat = Some s -> s = EmptyString).
Proof.
  unfold _load_keys_file. rewrite <- fold_offer_empty, <- parse_lines_values.
  destruct (parse_lines content) as [values sequential].
  apply fill_sequential_empty.
Qed.

(** ** Reading back what was written *)

Lemma rstrip_app (a b : string) :
  Py.rstrip (a +:+ b) =
  match Py.rstrip b with
  | EmptyString => Py.rstrip a
  | _ => a +:+ Py.rstrip b
  end.
Proof.
  induction a as [|c a IH].
  - simpl. now destruct (Py.rstrip b).
  - change (String c a +:+ b) with (String c (a +:+ b)).
    cbn [Py.rstrip]. rewrite IH.
    destruct (Py.rstrip b) as [|y r]; [reflexivity |].
    destruct a; reflexivity.
Qed.

(** A key line of the environment file is as the parser wants it. *)
Lemma strip_key_line (c : ascii) (key v : string) :
  Py.isspace c = false ->
  Py.rstrip (String c key) = String c key ->
  Py.rstrip v = v ->
  Py.strip (String c key +:+ v) = String c key +:+ v.
Proof.
  intros Hc Hk Hv. unfold Py.strip. rewrite rstrip_app, Hv, Hk.
  destruct v as [|y r].
  - rewrite append_nil_r. simpl. now rewrite Hc.
  - simpl. now rewrite Hc.
Qed.

Lemma clean_plain (v : string) : plain_value v -> clean v = v.
Proof.
  intros (Hl & Hr & Hh & Hq & _). unfold clean.
  rewrite (remove_inline_comment_plain _ Hh). unfold Py.strip.
  now rewrite Hr, Hl.
Qed.

Lemma process_written_line (values : Dict.t) (sequential : list string)
    (c : ascii) (key v : string) :
  Py.isspace c = false ->
  Ascii.eqb "#" c = false ->
  Py.rstrip (String c key +:+ "=") = String c key +:+ "=" ->
  Py.strip (String c key) = String c key ->
  Py.has_char "=" (String c key) = false ->
  plain_value v ->
  process_line (values, sequential) (String c key +:+ "=" +:+ v) =
  (Dict.setdefault (stored_key (String c key)) v values, sequential).
Proof.
  intros Hc Hhash Hk Hs He Hv.
  pose proof Hv as (Hl & Hr & _).
  assert (Hline : Py.strip (String c key +:+ "=" +:+ v) = String c key +:+ "=" +:+ v).
  { rewrite <- append_assoc.
    change (String c key +:+ "=") with (String c (key +:+ "=")) in *.
    now apply strip_key_line. }
  rewrite (process_line_labeled values sequential _ (String c key) v).
  - fold (clean v). now rewrite (clean_plain _ Hv).
  - rewrite Hline. unfold is_effective.
    change (String c key +:+ "=" +:+ v) with (String c (key +:+ "=" +:+ v)).
    cbn [String.eqb Py.startswith orb]. now rewrite Hhash.
  - rewrite Hline, (parse_key_line_equals _ _ He), Hs. unfold Py.strip.
    now rewrite Hr, Hl.
Qed.

(** X9.  The environment file made from two answers that are plain values
    (no white space around them, no [#], no line break, no surrounding
    quotes) is read back by the key-file parser as the same mapping. *)
Theorem written_keys_read_back (g o : string) :
  plain_value g -> plain_value o ->
  _load_keys_file
    (Some (_format_env [(GEMINI_API_KEY, g); (OPENAI_API_KEY, o)])) =
  [(GEMINI_API_KEY, g); (OPENAI_API_KEY, o)].
Proof.
  intros Hg Ho. rewrite load_keys_file_lines, format_env_lines.
  assert (Hlb : forall v, plain_value v -> no_linebreak v = true)
    by (intros v (_ & _ & _ & _ & H); exact H).
  rewrite splitlines_unlines.
  2:{ apply env_lines_inside; repeat constructor; now apply Hlb. }
  change (env_lines [(GEMINI_API_KEY, g); (OPENAI_API_KEY, o)])
    with [env_header; "GEMINI_API_KEY" +:+ "=" +:+ g;
          "OPENAI_API_KEY" +:+ "=" +:+ o].
  unfold load_lines. cbn [fold_left].
  rewrite (process_line_skipped _ env_header) by reflexivity.
  unfold Dict.empty.
  rewrite (process_written_line [] [] "G" "EMINI_API_KEY" g) by (reflexivity || exact Hg).
  rewrite (process_written_line _ [] "O" "PENAI_API_KEY" o) by (reflexivity || exact Ho).
  reflexivity.
Qed.

Lemma written_keys_read_back_witness :
  _load_keys_file
    (Some (_format_env [(GEMINI_API_KEY, "abc-123"); (OPENAI_API_KEY, EmptyString)])) =
  [(GEMINI_API_KEY, "abc-123"); (OPENAI_API_KEY, EmptyString)].
Proof.
  apply written_keys_read_back; repeat split; reflexivity.
Defined.

(** ** What [create_env_from_keys] can and cannot do *)

Ltac close_env_case :=
  unfold_run; step_run; repeat split;
  first [ now left | right; eexists; reflexivity ].

Lemma create_env_from_keys_effect (w : world) :
  fst (create_env_from_keys w) = Returns tt /\
  calls (snd (create_env_from_keys w)) = calls w /\
  runs (snd (create_env_from_keys w)) = runs w /\
  environ (snd (create_env_from_keys w)) = environ w /\
  (fs (snd (create_env_from_keys w)) = fs w \/
   exists values,
     fs (snd (create_env_from_keys w)) =
     <[".env" := File (_format_env values)]> (fs w)).
Proof.
  assert (Hprompt : forall file,
            fs w !! "Keys.txt" = File <$> file ->
            Dict.is_empty (_load_keys_file file) = true ->
            fst (create_env_from_keys w) = Returns tt /\
            calls (snd (create_env_from_keys w)) = calls w /\
            runs (snd (create_env_from_keys w)) = runs w /\
            environ (snd (create_env_from_keys w)) = environ w /\
            (fs (snd (create_env_from_keys w)) = fs w \/
             exists values,
               fs (snd (create_env_from_keys w)) =
               <[".env" := File (_format_env values)]> (fs w))).
  { intros file Hk Hv.
    destruct (stdin w) as [|[a|] [|[b|] rest]] eqn:Hin;
      [ | | destruct (fs w !! ".env") as [[old|]|] eqn:He | | | | ];
      destruct file; cbn [fmap option_fmap option_map] in Hk; close_env_case. }
  destruct (fs w !! "Keys.txt") as [[content|]|] eqn:Hk.
  - destruct (Dict.is_empty (_load_keys_file (Some content))) eqn:Hv.
    + now apply (Hprompt (Some content)).
    + destruct (fs w !! ".env") as [[old|]|] eqn:He; close_env_case.
  - close_env_case.
  - now apply (Hprompt None).
Qed.

(** X10.  In every world [create_env_from_keys] returns normally, starts
    no process, and leaves the file system as it was or with .env alone
    replaced by a formatted mapping. *)
Theorem create_env_from_keys_contained (w : world) :
  fst (create_env_from_keys w) = Returns tt /\
  calls (snd (create_env_from_keys w)) = calls w /\
  (fs (snd (create_env_from_keys w)) = fs w \/
   exists values,
     fs (snd (create_env_from_keys w)) =
     <[".env" := File (_format_env values)]> (fs w)).
Proof.
  destruct (create_env_from_keys_effect w) as (Hr & Hc & _ & _ & Hfs).
  now repeat split.
Qed.

Lemma is_empty_false (d : Dict.t) : d <> [] -> Dict.is_empty d = false.
Proof. destruct d; [congruence | reflexivity]. Qed.

Lemma create_env_from_file (w : world) (content : string) :
  fs w !! "Keys.txt" = Some (File content) ->
  _load_keys_file (Some content) <> [] ->
  fs w !! ".env" <> Some Dir ->
  create_env_from_keys w =
  (Returns tt,
   add_output (Print env_created_message)
     (set_fs (<[".env" := File (_format_env (_load_keys_file (Some content)))]> (fs w))
        w)).
Proof.
  intros Hk Hne Hd. apply is_empty_false in Hne.
  destruct (fs w !! ".env") as [[old|]|] eqn:He; [| now destruct Hd |]; solve_run.
Qed.

(** X11.  With a key file that gives at least one key, the environment
    file written is the formatted mapping of that file, whatever .env held
    before; nothing is asked of the user, and a second run writes the same
    file again. *)
Theorem env_file_from_key_file (w : world) (content : string) :
  fs w !! "Keys.txt" = Some (File content) ->
  _load_keys_file (Some content) <> [] ->
  fs w !! ".env" <> Some Dir ->
  let w1 := snd (create_env_from_keys w) in
  fs w1 !! ".env" = Some (File (_format_env (_load_keys_file (Some content)))) /\
  (forall p, p <> ".env" -> fs w1 !! p = fs w !! p) /\
  stdin w1 = stdin w /\
  printed w1 = printed w ++ [Print env_created_message] /\
  fs (snd (create_env_from_keys w1)) = fs w1.
Proof.
  intros Hk Hne Hd. cbv zeta.
  rewrite (create_env_from_file w content Hk Hne Hd).
  cbn [snd fs stdin printed add_output set_fs].
  split; [apply lookup_insert_eq |].
  split; [intros p Hp; now apply lookup_insert_ne |].
  split; [reflexivity |]. split; [reflexivity |].
  rewrite (create_env_from_file _ content).
  - cbn [snd fs add_output set_fs]. apply insert_insert_eq.
  - cbn [fs add_output set_fs]. now rewrite lookup_insert_ne.
  - exact Hne.
  - cbn [fs add_output set_fs]. now rewrite lookup_insert_eq.
Qed.

Lemma env_file_from_key_file_witness :
  fs (snd (create_env_from_keys keys_and_old_env_world)) !! ".env" =
  Some (File (unlines [env_header; "GEMINI_API_KEY=k"; "OPENAI_API_KEY="])).
Proof.
  pose proof (env_file_from_key_file keys_and_old_env_world
                "gemini_api_key: k" ltac:(reflexivity)
                ltac:(discriminate) ltac:(discriminate))
    as H.
  cbv zeta in H. destruct H as [H _]. rewrite H. reflexivity.
Defined.

(** X12.  When no key comes from Keys.txt and the terminal is at its end
    before both answers are given, nothing is written; the end of input is
    reported as a failure, not as an abort by the user. *)
Theorem end_of_input_writes_nothing (w : world) (file first : option string) :
  fs w !! "Keys.txt" = File <$> file ->
  _load_keys_file file = [] ->
  stdin w = match first with Some a => [Line a] | None => [] end ->
  exists w',
    create_env_from_keys w = (Returns tt, w') /\
    fs w' = fs w /\
    printed w' =
      printed w ++
      [Print no_keys_notice; Print prompt_notice; Prompt gemini_prompt] ++
      match first with Some _ => [Prompt openai_prompt] | None => [] end ++
      [PrintExn env_failed_prefix EOFError].
Proof.
  intros Hk Hv Hin.
  assert (He : Dict.is_empty (_load_keys_file file) = true) by now rewrite Hv.
  destruct file as [content|], first as [a|];
    cbn [fmap option_fmap option_map app] in Hk, Hin;
    (eexists; split; [solve_run |]);
    cbn [fs calls stdin printed add_output set_stdin];
    rewrite <- ?app_assoc; auto.
Qed.

Lemma end_of_input_writes_nothing_witness :
  fs (snd (create_env_from_keys one_answer_world)) !! ".env" = None.
Proof.
  destruct (end_of_input_writes_nothing one_answer_world
              None (Some "abc") ltac:(reflexivity) ltac:(reflexivity)
              ltac:(reflexivity))
    as (w' & Hrun & Hfs & _).
  rewrite Hrun. cbn [snd]. rewrite Hfs. reflexivity.
Defined.

(** ** What [setup_environment] asks and when it writes *)

Ltac unfold_setup :=
  cbv beta delta
    [setup_environment try_except bind print print_exn input path_exists ret
     get_world].

Lemma lower_is_y (s : string) :
  Py.lower s = "y" -> s = "y" \/ s = "Y".
Proof.
  destruct s as [|c [|d r]]; try discriminate.
  simpl. intros [= H]. revert H.
  destruct c as [[] [] [] [] [] [] [] []]; try discriminate; intros _; auto.
Qed.

Lemma setup_environment_present (w : world) :
  is_Some (fs w !! ".env") ->
  setup_environment w =
  (Returns tt,
   add_output (Print setup_done_message)
     (add_output (Print setting_up_message) w)).
Proof.
  intros [n Hn]. unfold_setup. step_run. reflexivity.
Qed.

(** X13.  [setup_environment] leaves an existing .env alone and asks
    nothing; it changes the file system only if .env is missing and the
    answer to its question is y or Y. *)
Theorem setup_environment_writes_only_on_yes (w : world) :
  (is_Some (fs w !! ".env") ->
   fst (setup_environment w) = Returns tt /\
   fs (snd (setup_environment w)) = fs w /\
   stdin (snd (setup_environment w)) = stdin w /\
   calls (snd (setup_environment w)) = calls w) /\
  (fs (snd (setup_environment w)) <> fs w ->
   fs w !! ".env" = None /\
   exists answer rest,
     stdin w = Line answer :: rest /\ (answer = "y" \/ answer = "Y")).
Proof.
  split.
  - intros H. rewrite (setup_environment_present w H). repeat split.
  - intros Hfs. destruct (fs w !! ".env") as [n|] eqn:He.
    + exfalso. apply Hfs.
      now rewrite (setup_environment_present w (ex_intro _ n He)).
    + split; [reflexivity |].
      destruct (stdin w) as [|[answer|] rest] eqn:Hin.
      * exfalso. apply Hfs. unfold_setup. step_run. reflexivity.
      * destruct (String.eqb (Py.lower answer) "y") eqn:Hy.
        -- apply String.eqb_eq, lower_is_y in Hy. now exists answer, rest.
        -- exfalso. apply Hfs. unfold_setup. step_run. rewrite Hy.
           step_run. reflexivity.
      * exfalso. apply Hfs. unfold_setup. step_run. reflexivity.
Qed.

Lemma setup_environment_writes_only_on_yes_witness :
  fs (snd (setup_environment configured_world)) = fs configured_world /\
  stdin (snd (setup_environment configured_world)) = [Line "y"].
Proof.
  destruct (setup_environment_writes_only_on_yes configured_world) as [H _].
  destruct H as (_ & Hfs & Hin & _); [eexists; reflexivity |].
  split; [exact Hfs | exact Hin].
Defined.

(** X14.  Ctrl-C at the question of [setup_environment] is not caught:
    KeyboardInterrupt leaves the function, and so does EOFError when the
    terminal is at its end.  Nothing is written in either case. *)
Theorem setup_question_interrupt_propagates (w : world) :
  fs w !! ".env" = None ->
  match stdin w with
  | CtrlC :: _ =>
      fst (setup_environment w) = Raises KeyboardInterrupt /\
      fs (snd (setup_environment w)) = fs w
  | [] =>
      fst (setup_environment w) = Raises EOFError /\
      fs (snd (setup_environment w)) = fs w
  | Line _ :: _ => True
  end.
Proof.
  intros He. destruct (stdin w) as [|[answer|] rest] eqn:Hin; [| exact I |];
    unfold_setup; step_run; split; reflexivity.
Qed.

Lemma setup_question_interrupt_propagates_witness :
  fst (setup_environment refusing_world) = Raises KeyboardInterrupt /\
  fs (snd (setup_environment refusing_world)) !! ".env" = None.
Proof.
  pose proof (setup_question_interrupt_propagates refusing_world
                ltac:(reflexivity)) as H.
  cbn [stdin refusing_world] in H. destruct H as [Hr Hfs].
  split; [exact Hr | now rewrite Hfs].
Defined.

(** ** What the installer leaves alone *)

Lemma same_surroundings_refl (w : world) : same_surroundings w w.
Proof. repeat split. Qed.

Lemma same_surroundings_trans (w1 w2 w3 : world) :
  same_surroundings w1 w2 -> same_surroundings w2 w3 -> same_surroundings w1 w3.
Proof.
  unfold same_surroundings. intros (A1 & A2 & A3 & A4 & A5 & A6)
    (B1 & B2 & B3 & B4 & B5 & B6).
  repeat split; congruence.
Qed.

Lemma after_pip_surroundings (w : world) (c : completed) :
  same_surroundings w (after_pip w c) /\
  calls (after_pip w c) = calls w ++ [pip_command (sys_executable w) false true].
Proof.
  unfold after_pip. destruct (truthy (stdout c)), (truthy (stderr c));
    repeat split.
Qed.

Lemma install_with_virtualenv_surroundings (w : world) :
  same_surroundings w (snd (_install_with_virtualenv w)).
Proof.
  destruct (bool_decide (is_Some (fs w !! venv_dir))) eqn:Hp.
  - destruct (runs w (length (calls w))) as [c| |] eqn:H1;
      [destruct (returncode c =? 0)%Z eqn:R1 | |];
      cbv beta delta [_install_with_virtualenv try_except bind print print_exn
                      path_exists subprocess_run ret get_world];
      step_install; repeat split.
  - destruct (runs w (length (calls w))) as [c| |] eqn:H1;
      [destruct (returncode c =? 0)%Z eqn:R1;
       [destruct (runs w (S (length (calls w)))) as [c'| |] eqn:H2;
        [destruct (returncode c' =? 0)%Z eqn:R2 | |] |] | |];
      cbv beta delta [_install_with_virtualenv try_except bind print print_exn
                      path_exists subprocess_run ret get_world];
      step_install; repeat split.
Qed.

Lemma install_dependencies_plain (w : world) (c : completed) :
  runs w (length (calls w)) = Exits c ->
  ((returncode c =? 0)%Z = true \/
   Py.contains externally_managed (stderr c) = false) ->
  same_surroundings w (snd (install_dependencies w)) /\
  calls (snd (install_dependencies w)) =
    calls w ++ [pip_command (sys_executable w) false true].
Proof.
  intros H1 Hcase.
  destruct (returncode c =? 0)%Z eqn:R1;
    [| destruct Hcase as [Hcase | Hm]; [discriminate Hcase |]];
    destruct (truthy (stdout c)) eqn:To, (truthy (stderr c)) eqn:Te;
    cbv beta delta [install_dependencies bind print stdout_write stderr_write
                    subprocess_run ret get_world];
    step_install; repeat split.
Qed.

Lemma install_dependencies_interrupted (w : world) :
  runs w (length (calls w)) = Interrupted ->
  fst (install_dependencies w) = Raises KeyboardInterrupt /\
  same_surroundings w (snd (install_dependencies w)) /\
  calls (snd (install_dependencies w)) =
    calls w ++ [pip_command (sys_executable w) false true].
Proof.
  intros H1.
  cbv beta delta [install_dependencies bind print stdout_write stderr_write
                  subprocess_run ret get_world];
    step_install; repeat split.
Qed.

Lemma install_dependencies_unstartable (w : world) :
  runs w (length (calls w)) = CannotStart ->
  fst (install_dependencies w) = Raises OSError /\
  same_surroundings w (snd (install_dependencies w)) /\
  calls (snd (install_dependencies w)) = calls w.
Proof.
  intros H1.
  cbv beta delta [install_dependencies bind print stdout_write stderr_write
                  subprocess_run ret get_world];
    step_install; repeat split.
Qed.

Lemma pip_is_no_launch (exe : string) (check capture : bool) :
  is_app_launch (pip_command exe check capture) = false.
Proof. reflexivity. Qed.

Lemma venv_is_no_launch (exe : string) :
  is_app_launch (venv_command exe) = false.
Proof. reflexivity. Qed.

Lemma started_by_no_launch (fate : run_event) (c : call) :
  is_app_launch c = false ->
  Forall (fun c => is_app_launch c = false) (started_by fate c).
Proof.
  intros H. unfold started_by. destruct (unstartable fate); repeat constructor.
  exact H.
Qed.

Lemma started_by_length (fate : run_event) (c : call) :
  (length (started_by fate c) <= 1)%nat.
Proof. unfold started_by. destruct (unstartable fate); simpl; lia. Qed.

Lemma install_dependencies_effect (w : world) :
  same_surroundings w (snd (install_dependencies w)) /\
  exists started,
    calls (snd (install_dependencies w)) = calls w ++ started /\
    (length started <= 3)%nat /\
    firstn 1 started =
      started_by (runs w (length (calls w)))
                 (pip_command (sys_executable w) false true) /\
    Forall (fun c => is_app_launch c = false) started.
Proof.
  destruct (runs w (length (calls w))) as [c| |] eqn:H1.
  - destruct (returncode c =? 0)%Z eqn:R1;
      [| destruct (Py.contains externally_managed (stderr c)) eqn:Hm].
    + destruct (install_dependencies_plain w c H1 (or_introl R1)) as [Hs Hc].
      split; [exact Hs |]. eexists. split; [exact Hc |].
      split; [simpl; lia |]. split; [reflexivity | repeat constructor].
    + rewrite (install_dependencies_delegates _ _ H1 R1 Hm).
      destruct (after_pip_surroundings w c) as [Hs1 Hc1].
      pose proof (install_with_virtualenv_surroundings (after_pip w c)) as Hs2.
      destruct (install_with_virtualenv_run (after_pip w c)) as (_ & Hc2 & _).
      split; [exact (same_surroundings_trans _ _ _ Hs1 Hs2) |].
      rewrite Hc2, Hc1, <- app_assoc. cbn [app].
      eexists. split; [reflexivity |].
      split; [| split; [reflexivity |]].
      * cbn [length]. rewrite length_app.
        match goal with
        | |- context [length (if ?b then [] else started_by ?f ?c)] =>
            assert (length (if b then [] else started_by f c) <= 1)%nat
              by (destruct b; [simpl; lia | apply started_by_length])
        end.
        match goal with
        | |- context [length (if ?b then started_by ?f ?c else [])] =>
            assert (length (if b then started_by f c else []) <= 1)%nat
              by (destruct b; [apply started_by_length | simpl; lia])
        end.
        lia.
      * constructor; [reflexivity |]. apply Forall_app. split.
        -- destruct (bool_decide _); [constructor |].
           now apply started_by_no_launch.
        -- match goal with
           | |- context [if ?b then started_by _ _ else []] => destruct b
           end; [now apply started_by_no_launch | constructor].
    + destruct (install_dependencies_plain w c H1 (or_intror Hm)) as [Hs Hc].
      split; [exact Hs |]. eexists. split; [exact Hc |].
      split; [simpl; lia |]. split; [reflexivity | repeat constructor].
  - destruct (install_dependencies_interrupted w H1) as (_ & Hs & Hc).
    split; [exact Hs |]. eexists. split; [exact Hc |].
    split; [simpl; lia |]. split; [reflexivity | repeat constructor].
  - destruct (install_dependencies_unstartable w H1) as (_ & Hs & Hc).
    split; [exact Hs |]. exists []. rewrite app_nil_r.
    split; [exact Hc |]. split; [simpl; lia |].
    split; [reflexivity | constructor].
Qed.

(** X15.  [install_dependencies] reads nothing from the terminal and
    leaves the environment variables alone.  It starts at most three
    processes; the first is its install command under the current
    interpreter (when that cannot be started, nothing is started at all),
    and none of them is the application.  What the started processes do
    to the disk is not part of the statement. *)
Theorem install_dependencies_surroundings (w : world) :
  let w' := snd (install_dependencies w) in
  stdin w' = stdin w /\
  environ w' = environ w /\
  exists started,
    calls w' = calls w ++ started /\
    (length started <= 3)%nat /\
    firstn 1 started =
      started_by (runs w (length (calls w)))
                 (pip_command (sys_executable w) false true) /\
    Forall (fun c => is_app_launch c = false) started.
Proof.
  cbv zeta.
  destruct (install_dependencies_effect w) as ((_ & Hin & _ & Henv & _) & H).
  split; [exact Hin |]. split; [exact Henv | exact H].
Qed.

(** X16.  An interrupt by the user while a command of the installer runs
    is not caught: KeyboardInterrupt leaves [install_dependencies], be it
    during the first install, during the creation of .venv or during the
    install inside .venv. *)
Theorem install_interrupt_propagates (w : world) :
  let n := length (calls w) in
  let present := bool_decide (is_Some (fs w !! venv_dir)) in
  (runs w n = Interrupted ->
   fst (install_dependencies w) = Raises KeyboardInterrupt) /\
  (forall c, runs w n = Exits c -> failed (runs w n) = true ->
     Py.contains externally_managed (stderr c) = true ->
     (present = false -> runs w (S n) = Interrupted ->
      fst (install_dependencies w) = Raises KeyboardInterrupt) /\
     (present || succeeded (runs w (S n)) = true ->
      runs w (if present then S n else S (S n)) = Interrupted ->
      fst (install_dependencies w) = Raises KeyboardInterrupt)).
Proof.
  cbv zeta. split; [apply install_dependencies_interrupted |].
  intros c H1 Hf Hm. rewrite H1 in Hf. cbn [failed] in Hf.
  apply negb_true_iff in Hf.
  rewrite (install_dependencies_delegates _ _ H1 Hf Hm).
  destruct (install_with_virtualenv_run (after_pip w c)) as (Hr & _).
  destruct (after_pip_surroundings w c) as [(Efs & _ & Eruns & _) Ecalls].
  rewrite Ecalls, Efs, Eruns, length_snoc in Hr. rewrite Hr. clear Hr.
  split.
  - intros -> H2. cbn [orb]. rewrite H2. reflexivity.
  - intros Hcreated H3. rewrite Hcreated.
    destruct (bool_decide (is_Some (fs w !! venv_dir))); now rewrite H3.
Qed.

Lemma install_interrupt_propagates_witness :
  fst (install_dependencies interrupted_pip_world) = Raises KeyboardInterrupt.
Proof.
  pose proof (install_interrupt_propagates interrupted_pip_world) as H.
  cbv zeta in H. destruct H as [H _]. apply H. reflexivity.
Defined.

(** ** The precondition check *)

Lemma tuple_lt_3_10 (major minor : Z) (rest : list Z) :
  tuple_lt (major :: minor :: rest) [3%Z; 10%Z] = true <->
  (major < 3 \/ (major = 3 /\ minor < 10))%Z.
Proof.
  cbn [tuple_lt].
  destruct (major <? 3)%Z eqn:A.
  { apply Z.ltb_lt in A. split; [intros _; now left | reflexivity]. }
  apply Z.ltb_ge in A.
  destruct (3 <? major)%Z eqn:B.
  { apply Z.ltb_lt in B. split; [discriminate | intros [H | [H _]]; lia]. }
  apply Z.ltb_ge in B.
  destruct (minor <? 10)%Z eqn:C.
  { apply Z.ltb_lt in C. split; [intros _; right; lia | reflexivity]. }
  apply Z.ltb_ge in C.
  assert (E : (if (10 <? minor)%Z then false else tuple_lt rest []) = false).
  { destruct (10 <? minor)%Z; [reflexivity | now destruct rest]. }
  rewrite E. split; [discriminate | intros [H | [_ H]]; lia].
Qed.

Lemma check_requirements_run (v : list Z) (w : world) :
  exists shown,
    check_requirements v w =
    (Returns (negb (tuple_lt v [3%Z; 10%Z]) &&
              bool_decide (is_Some (fs w !! "requirements.txt"))),
     World (fs w) (stdin w) (printed w ++ shown) (runs w) (calls w) (environ w)
           (sys_executable w) (os_name w)).
Proof.
  unfold check_requirements, bind, print, path_exists, ret.
  destruct (tuple_lt v [3%Z; 10%Z]); cbn [negb andb];
    [| cbn [fs add_output];
       destruct (bool_decide (is_Some (fs w !! "requirements.txt"))); cbn [negb]];
    eexists; unfold add_output;
    cbn [fs stdin printed runs calls environ sys_executable os_name];
    rewrite <- app_assoc; reflexivity.
Qed.

(** X17.  [check_requirements] says yes exactly when the interpreter is
    3.10 or newer and requirements.txt exists; it only prints. *)
Theorem check_requirements_verdict (major minor : Z) (rest : list Z) (w : world) :
  let run := check_requirements (major :: minor :: rest) w in
  (fst run = Returns true <->
   (3 < major \/ (major = 3 /\ 10 <= minor))%Z /\
   is_Some (fs w !! "requirements.txt")) /\
  (fst run = Returns true \/ fst run = Returns false) /\
  same_surroundings w (snd run) /\
  calls (snd run) = calls w.
Proof.
  cbv zeta.
  destruct (check_requirements_run (major :: minor :: rest) w) as [shown ->].
  cbn [fst snd]. split; [| split; [| split; [repeat split | reflexivity]]].
  - pose proof (tuple_lt_3_10 major minor rest) as Hlt.
    destruct (tuple_lt (major :: minor :: rest) [3%Z; 10%Z]); cbn [negb andb].
    + split; [discriminate |]. intros [Hv _].
      assert (major < 3 \/ major = 3 /\ minor < 10)%Z by now apply Hlt. lia.
    + case_bool_decide as Hreq; split.
      * intros _. split; [| exact Hreq].
        destruct (Z.lt_trichotomy major 3) as [H | [H | H]];
          [exfalso | | lia].
        -- assert (false = true) by (apply Hlt; lia). discriminate.
        -- destruct (Z.lt_ge_cases minor 10) as [H' | H']; [| lia].
           assert (false = true) by (apply Hlt; lia). discriminate.
      * reflexivity.
      * discriminate.
      * intros [_ H]. contradiction.
  - destruct (negb _ && _); auto.
Qed.

(** ** The stages of [main] *)

Lemma setup_environment_effect (w : world) :
  calls (snd (setup_environment w)) = calls w /\
  runs (snd (setup_environment w)) = runs w /\
  environ (snd (setup_environment w)) = environ w.
Proof.
  destruct (fs w !! ".env") as [n|] eqn:He.
  - rewrite (setup_environment_present w (ex_intro _ n He)). repeat split.
  - destruct (stdin w) as [|[answer|] rest] eqn:Hin.
    + unfold_setup. step_run. repeat split.
    + destruct (String.eqb (Py.lower answer) "y") eqn:Hy.
      * unfold_setup. step_run. rewrite Hy.
        match goal with
        | |- context [create_env_from_keys ?w1] =>
            destruct (create_env_from_keys_effect w1) as (Hr & Hc & Hru & Hen & _);
            destruct (create_env_from_keys w1) as [r w2]
        end.
        cbn [fst snd] in *. subst r. cbn [fst snd calls runs environ add_output].
        rewrite Hc, Hru, Hen. repeat split.
      * unfold_setup. step_run. rewrite Hy. step_run. repeat split.
    + unfold_setup. step_run. repeat split.
Qed.

Lemma run_application_effect (python_exec : string) (w : world) :
  let fate := runs w (length (calls w)) in
  fst (run_application python_exec w) =
    (if unstartable fate then Raises OSError else Returns tt) /\
  calls (snd (run_application python_exec w)) =
    calls w ++ started_by fate (app_command python_exec (app_env w)) /\
  fs (snd (run_application python_exec w)) = fs w /\
  stdin (snd (run_application python_exec w)) = stdin w.
Proof.
  unfold run_application, banner, print_all, bind, try_except, print,
    get_world, subprocess_run, ret, app_env, started_by.
  simpl. destruct (runs w (length (calls w))) as [c| |]; simpl.
  - destruct (returncode c =? 0)%Z; simpl; repeat split.
  - repeat split.
  - rewrite app_nil_r. repeat split.
Qed.

Lemma app_command_is_launch (exe : string) (env : gmap string string) :
  is_app_launch (app_command exe env) = true.
Proof. reflexivity. Qed.

Lemma truthy_true (s : string) : truthy s = true -> s <> EmptyString.
Proof.
  unfold truthy. intros H ->. discriminate H.
Qed.

(** X18.  Whatever happens, [main] launches the application at most once
    and as its last process, only when it runs to its end and with a
    non-empty interpreter path, the environment being the inherited one
    with PORT set.  When it stops early it is with exit status 1 or with
    an exception, and the application was not launched. *)
Theorem main_launch_discipline (version_info : list Z) (w : world) :
  exists started,
    calls (snd (main version_info w)) = calls w ++ started /\
    match fst (main version_info w) with
    | Returns Finished =>
        exists before exe,
          started = before ++ [app_command exe (app_env w)] /\
          Forall (fun c => is_app_launch c = false) before /\
          exe <> EmptyString
    | Returns (SystemExit code) =>
        code = 1%Z /\ Forall (fun c => is_app_launch c = false) started
    | Raises _ => Forall (fun c => is_app_launch c = false) started
    end.
Proof.
  unfold main, bind.
  change (print_all main_title w)
    with (Returns tt,
          add_output (Print (Py.repeat "=" 50))
            (add_output (Print "🎯 AnyAI Marketing Agent - ローカル実行") w)).
  cbv iota beta.
  set (w0 := add_output _ (add_output _ w)).
  destruct (check_requirements_run version_info w0) as [shown ->].
  set (w1 := World _ _ _ _ _ _ _ _).
  destruct (negb (tuple_lt version_info [3%Z; 10%Z]) &&
            bool_decide (is_Some (fs w0 !! "requirements.txt"))); cbn [negb].
  2:{ exists []. rewrite app_nil_r. unfold ret. cbn [fst snd].
      split; [reflexivity |]. split; [reflexivity | constructor]. }
  destruct (install_dependencies_effect w1)
    as ((_ & _ & _ & Henv1 & _ & _) & more & Hcalls1 & _ & _ & Hno).
  change (calls w1) with (calls w) in Hcalls1.
  change (environ w1) with (environ w) in Henv1.
  destruct (install_dependencies w1) as [r2 w2]. cbn [fst snd] in *.
  destruct r2 as [[exe|]|e].
  - destruct (truthy exe) eqn:Tr; cbn [negb].
    + destruct (setup_environment_effect w2) as (Hcalls2 & _ & Henv2).
      destruct (setup_environment w2) as [r3 w3]. cbn [fst snd] in *.
      destruct r3 as [[]|e].
      * destruct (run_application_effect exe w3) as (Hr & Hcalls3 & _).
        cbv zeta in Hr, Hcalls3. unfold started_by in Hcalls3.
        destruct (run_application exe w3) as [r4 w4]. cbn [fst snd] in *.
        subst r4. unfold ret.
        destruct (unstartable (runs w3 (length (calls w3)))); cbn [fst snd].
        -- eexists. split; [| exact Hno].
           rewrite Hcalls3, app_nil_r, Hcalls2. exact Hcalls1.
        -- eexists. split.
           ++ rewrite Hcalls3, Hcalls2, Hcalls1, <- app_assoc. reflexivity.
           ++ eexists _, exe.
              split; [| split; [exact Hno | now apply truthy_true]].
              unfold app_env. now rewrite Henv2, Henv1.
      * cbn [fst snd]. eexists. split; [rewrite Hcalls2; exact Hcalls1 | exact Hno].
    + unfold ret. cbn [fst snd]. eexists. split; [exact Hcalls1 |].
      split; [reflexivity | exact Hno].
  - unfold ret. cbn [fst snd]. eexists. split; [exact Hcalls1 |].
    split; [reflexivity | exact Hno].
  - cbn [fst snd]. eexists. split; [exact Hcalls1 | exact Hno].
Qed.

(** ** The paths through [main] *)

Ltac enter_main version_info w :=
  unfold main, bind;
  change (print_all main_title w)
    with (Returns tt,
          add_output (Print (Py.repeat "=" 50))
            (add_output (Print "🎯 AnyAI Marketing Agent - ローカル実行") w));
  cbv iota beta;
  let shown := fresh "shown" in
  destruct (check_requirements_run version_info
              (add_output (Print (Py.repeat "=" 50))
                 (add_output (Print "🎯 AnyAI Marketing Agent - ローカル実行") w)))
    as [shown ->];
  cbn [fs stdin printed runs calls environ sys_executable os_name add_output].

(** X19.  With an interpreter older than 3.10, or without
    requirements.txt, [main] stops with exit status 1 before anything is
    started, asked or written. *)
Theorem main_stops_on_failed_check (version_info : list Z) (w : world) :
  tuple_lt version_info [3%Z; 10%Z] = true \/ fs w !! "requirements.txt" = None ->
  fst (main version_info w) = Returns (SystemExit 1) /\
  calls (snd (main version_info w)) = calls w /\
  fs (snd (main version_info w)) = fs w /\
  stdin (snd (main version_info w)) = stdin w.
Proof.
  intros H. enter_main version_info w.
  assert (E : negb (tuple_lt version_info [3%Z; 10%Z]) &&
              bool_decide (is_Some (fs w !! "requirements.txt")) = false).
  { destruct H as [-> | ->]; [reflexivity |]. apply andb_false_r. }
  rewrite E. repeat split.
Qed.

Lemma main_stops_on_failed_check_witness :
  fst (main [3%Z; 9%Z; 18%Z] old_python_world) = Returns (SystemExit 1) /\
  stdin (snd (main [3%Z; 9%Z; 18%Z] old_python_world)) = [Line "y"].
Proof.
  destruct (main_stops_on_failed_check [3%Z; 9%Z; 18%Z] old_python_world)
    as (Hr & _ & _ & Hin); [now left |].
  split; [exact Hr | exact Hin].
Defined.


Lemma truthy_nonempty (s : string) : s <> EmptyString -> truthy s = true.
Proof.
  intros H. unfold truthy. apply negb_true_iff. now apply String.eqb_neq.
Qed.

(** After a successful install with interpreter [exe], and with an
    existing .env, the rest of [main] launches the application. *)
Lemma main_tail_launches (exe : string) (w2 : world) :
  is_Some (fs w2 !! ".env") ->
  let fate := runs w2 (length (calls w2)) in
  let rest :=
    bind setup_environment
      (fun _ => bind (run_application exe) (fun _ => ret Finished)) w2 in
  fst rest = (if unstartable fate then Raises OSError else Returns Finished) /\
  calls (snd rest) = calls w2 ++ started_by fate (app_command exe (app_env w2)) /\
  fs (snd rest) = fs w2 /\ stdin (snd rest) = stdin w2.
Proof.
  intros Henv. cbv zeta. unfold bind.
  rewrite (setup_environment_present w2 Henv).
  set (w3 := add_output _ (add_output _ w2)).
  destruct (run_application_effect exe w3) as (Hr & Hc & Hf & Hi).
  cbv zeta in Hr, Hc.
  change (runs w3 (length (calls w3))) with (runs w2 (length (calls w2))) in Hr, Hc.
  change (app_env w3) with (app_env w2) in Hc.
  destruct (run_application exe w3) as [r4 w4]. cbn [fst snd] in *.
  subst r4. unfold ret.
  destruct (unstartable (runs w2 (length (calls w2)))); cbn [fst snd];
    rewrite Hc, Hf, Hi; repeat split.
Qed.

(** X20.  With a recent interpreter, requirements.txt, an existing .env
    and an install that exits with status zero, [main] starts exactly two
    processes, the install and then the application under the same
    interpreter, and returns when the application is over, whatever its
    exit status; no file is written and nothing is read.  When the
    application cannot be started at all, the install is the only process
    and the OSError of [subprocess.run] leaves [main]. *)
Theorem main_runs_with_current_interpreter (version_info : list Z) (w : world)
    (c : completed) :
  tuple_lt version_info [3%Z; 10%Z] = false ->
  is_Some (fs w !! "requirements.txt") ->
  is_Some (fs w !! ".env") ->
  runs w (length (calls w)) = Exits c ->
  returncode c = 0%Z ->
  sys_executable w <> EmptyString ->
  match runs w (S (length (calls w))) with
  | Exits _ | Interrupted =>
      fst (main version_info w) = Returns Finished /\
      calls (snd (main version_info w)) =
        calls w ++ [pip_command (sys_executable w) false true;
                    app_command (sys_executable w) (app_env w)]
  | CannotStart =>
      fst (main version_info w) = Raises OSError /\
      calls (snd (main version_info w)) =
        calls w ++ [pip_command (sys_executable w) false true]
  end /\
  fs (snd (main version_info w)) = fs w /\
  stdin (snd (main version_info w)) = stdin w.
Proof.
  intros Hv Hreq Henv H1 Hrc Hexe. enter_main version_info w.
  rewrite Hv, (bool_decide_eq_true_2 _ Hreq). cbn [negb andb].
  set (w1 := World _ _ _ _ _ _ _ _).
  assert (R1 : (returncode c =? 0)%Z = true) by now apply Z.eqb_eq.
  pose proof (install_dependencies_direct w1) as Hd. cbv zeta in Hd.
  change (runs w1 (length (calls w1))) with (runs w (length (calls w))) in Hd.
  rewrite H1, R1 in Hd.
  destruct (install_dependencies_plain w1 c H1 (or_introl R1))
    as [(Hfs & Hin & Hru & Hen & _) Hc].
  change (calls w1) with (calls w) in Hc. change (runs w1) with (runs w) in Hru.
  destruct (install_dependencies w1) as [r2 w2]. cbn [fst snd] in *. subst r2.
  change (sys_executable w1) with (sys_executable w) in *.
  rewrite (truthy_nonempty _ Hexe). cbn [negb].
  destruct (main_tail_launches (sys_executable w) w2) as (Hr & Hc2 & Hf2 & Hi2).
  { rewrite Hfs. exact Henv. }
  cbv zeta in Hr, Hc2. unfold bind in Hr, Hc2, Hf2, Hi2.
  rewrite Hc, length_snoc, Hru in Hr, Hc2.
  unfold started_by, app_env in Hc2. rewrite Hen in Hc2.
  change (environ w1) with (environ w) in Hc2.
  rewrite Hr, Hc2, Hf2, Hi2, Hfs, Hin.
  split; [| split; reflexivity].
  destruct (runs w (S (length (calls w)))) as [c2| |]; cbn [unstartable];
    rewrite <- ?app_assoc, ?app_nil_r; split; reflexivity.
Qed.

Lemma main_runs_with_current_interpreter_witness :
  fst (main [3%Z; 12%Z; 1%Z] ready_world) = Returns Finished /\
  calls (snd (main [3%Z; 12%Z; 1%Z] ready_world)) =
    [pip_command "/usr/bin/python3" false true;
     app_command "/usr/bin/python3" {[ "PORT" := "25254" ]}].
Proof.
  destruct (main_runs_with_current_interpreter [3%Z; 12%Z; 1%Z] ready_world
              (Completed 0 "ok" EmptyString))
    as ((Hr & Hc) & _); try reflexivity;
    [eexists; reflexivity | eexists; reflexivity | discriminate |].
  split; [exact Hr | rewrite Hc; reflexivity].
Defined.



(** X22.  When the install fails without the marker, [main] stops with
    exit status 1 after that one process: no .venv is created and the
    application is not launched. *)
Theorem main_stops_on_failed_install (version_info : list Z) (w : world)
    (c : completed) :
  tuple_lt version_info [3%Z; 10%Z] = false ->
  is_Some (fs w !! "requirements.txt") ->
  runs w (length (calls w)) = Exits c ->
  returncode c <> 0%Z ->
  Py.contains externally_managed (stderr c) = false ->
  fst (main version_info w) = Returns (SystemExit 1) /\
  calls (snd (main version_info w)) =
    calls w ++ [pip_command (sys_executable w) false true] /\
  fs (snd (main version_info w)) = fs w /\
  stdin (snd (main version_info w)) = stdin w.
Proof.
  intros Hv Hreq H1 Hrc Hm. enter_main version_info w.
  rewrite Hv, (bool_decide_eq_true_2 _ Hreq). cbn [negb andb].
  set (w1 := World _ _ _ _ _ _ _ _).
  assert (R1 : (returncode c =? 0)%Z = false) by now apply Z.eqb_neq.
  pose proof (install_dependencies_direct w1) as Hd. cbv zeta in Hd.
  change (runs w1 (length (calls w1))) with (runs w (length (calls w))) in Hd.
  rewrite H1, R1, Hm in Hd. destruct Hd as [Hr _].
  destruct (install_dependencies_plain w1 c H1 (or_intror Hm))
    as [(Hfs & Hin & _) Hc].
  destruct (install_dependencies w1) as [r2 w2]. cbn [fst snd] in *. subst r2.
  unfold ret. cbn [fst snd]. rewrite Hc, Hfs, Hin. repeat split.
Qed.

Lemma main_stops_on_failed_install_witness :
  fst (main [3%Z; 12%Z; 1%Z] broken_pip_world) = Returns (SystemExit 1) /\
  calls (snd (main [3%Z; 12%Z; 1%Z] broken_pip_world)) =
    [pip_command "/usr/bin/python3" false true].
Proof.
  destruct (main_stops_on_failed_install [3%Z; 12%Z; 1%Z] broken_pip_world
              (Completed 2 EmptyString "no network"))
    as (Hr & Hc & _); try reflexivity;
    [eexists; reflexivity | discriminate |].
  split; [exact Hr | rewrite Hc; reflexivity].
Defined.
